(** * Aging & profit engine of the dashboard ([app.py])

    A shallow embedding of [hitung_aging] and [hitung_profit].  A data frame
    is the list of its rows, a row is a record of its columns, and a column
    operation of pandas is the same operation on every row.

    - numeric columns are [float64]: Rocq's primitive binary64 floats, whose
      [nan] is pandas' missing number;
    - product names are strings or missing;
    - a [datetime64[ns]] value is the number of nanoseconds since the epoch
      (a [Z] inside the int64 range), [NaT] is the missing one; a difference
      of two of them is taken in [Z] (pandas refuses one that leaves int64,
      which takes dates more than 292 years apart);
    - [pd.Timestamp.today()] is an argument of [hitung_aging];
    - [hitung_aging] assigns to the columns of the frame it is given and
      returns that frame: here it returns the new rows;
    - [hitung_aging] and [hitung_profit] give the frame a call returns,
      [call_hitung_aging] and [call_hitung_profit] the outcome of the call,
      which is an exception when a date difference leaves int64 or when
      the merge refuses its key columns.

    The calendar and the rendering of a month are those of pandas, written
    out in [Timestamp] and checked against the civil calendar below. *)

From Stdlib Require Import ZArith List String Ascii Bool Lia Sorted.
From Stdlib Require Import Floats.
Import ListNotations.

Local Open Scope Z_scope.
Set Warnings "-inexact-float".

(** ** Configuration *)

Definition PAJAK_RATE : float := 0.11%float.

(** ** Time stamps *)

Module Timestamp.

Definition NS_PER_DAY : Z := 86400000000000.

(** [pd.Timestamp.min] and [pd.Timestamp.max]; the least int64 is [NaT]. *)
Definition min_value : Z := - (2 ^ 63 - 1).
Definition max_value : Z := 2 ^ 63 - 1.

Definition in_bounds (ns : Z) : bool :=
  (min_value <=? ns) && (ns <=? max_value).

(** *** Calendar *)

Definition is_leap (y : Z) : bool :=
  (y mod 4 =? 0) && (negb (y mod 100 =? 0) || (y mod 400 =? 0)).

Definition days_in_month (y m : Z) : Z :=
  if m =? 2 then (if is_leap y then 29 else 28)
  else if (m =? 4) || (m =? 6) || (m =? 9) || (m =? 11) then 30
  else 31.

Definition year_length (y : Z) : Z := if is_leap y then 366 else 365.

(** Days from 0001-01-01 to the first of January of year [y]. *)
Definition days_before_year (y : Z) : Z :=
  365 * (y - 1) + (y - 1) / 4 - (y - 1) / 100 + (y - 1) / 400.

(** Days from the first of January of [y] to the first of month [m]. *)
Definition days_before_month (y m : Z) : Z :=
  let feb := days_in_month y 2 in
  match m with
  | 1 => 0
  | 2 => 31
  | 3 => 31 + feb
  | 4 => 62 + feb
  | 5 => 92 + feb
  | 6 => 123 + feb
  | 7 => 153 + feb
  | 8 => 184 + feb
  | 9 => 215 + feb
  | 10 => 245 + feb
  | 11 => 276 + feb
  | _ => 306 + feb
  end.

(** Days from 1970-01-01 to the civil date [y]-[m]-[d]. *)
Definition days_from_civil (y m d : Z) : Z :=
  days_before_year y - days_before_year 1970 + days_before_month y m + (d - 1).

Definition valid_civil (y m d : Z) : bool :=
  (1 <=? m) && (m <=? 12) && (1 <=? d) && (d <=? days_in_month y m).

(** The year of the [n]-th day (from 0) after 0001-01-01: the last year
    that starts on that day or before it, looked for upwards from a year
    that is not too late, every year having 366 days at most. *)
Fixpoint year_search (fuel : nat) (y n : Z) : Z :=
  match fuel with
  | O => y
  | S fuel' =>
      if days_before_year (y + 1) <=? n then year_search fuel' (y + 1) n
      else y
  end.

Definition year_of_ordinal (n : Z) : Z :=
  year_search 8 (n / 366 + 1) n.

(** Month and day of the [yday]-th day (from 0) of year [y]: the months
    before December are stepped through, what is left is in December. *)
Fixpoint month_of_yday (y : Z) (months : list Z) (yday : Z) : Z * Z :=
  match months with
  | [] => (12, yday + 1)
  | m :: rest =>
      if yday <? days_in_month y m then (m, yday + 1)
      else month_of_yday y rest (yday - days_in_month y m)
  end.

(** Civil date of a day count from 1970-01-01. *)
Definition civil_from_days (days : Z) : Z * Z * Z :=
  let n := days + days_before_year 1970 in
  let y := year_of_ordinal n in
  let '(m, d) := month_of_yday y [1; 2; 3; 4; 5; 6; 7; 8; 9; 10; 11] (n - days_before_year y) in
  (y, m, d).

(** [ts.dt.to_period('M')]: calendar year and month of the time stamp. *)
Definition to_period_M (ns : Z) : Z * Z :=
  let '(y, m, _) := civil_from_days (ns / NS_PER_DAY) in (y, m).

(** *** Rendering *)

Definition digit (n : Z) : ascii := ascii_of_nat (48 + Z.to_nat (n mod 10)).

Definition digits2 (n : Z) : string :=
  String (digit (n / 10)) (String (digit n) EmptyString).

Definition digits4 (n : Z) : string :=
  String (digit (n / 1000)) (String (digit (n / 100)) (digits2 n)).

(** [str] of a monthly period, the format [%Y-%m]. *)
Definition strftime_Ym (p : Z * Z) : string :=
  (digits4 (fst p) ++ "-" ++ digits2 (snd p))%string.

(** The time stamp of a civil date and a time of day in nanoseconds. *)
Definition of_civil (y m d tod : Z) : Z :=
  days_from_civil y m d * NS_PER_DAY + tod.

End Timestamp.

(** ** Cells and rows *)

(** A cell of a date column as the sheet gives it: missing ([NaN], [None],
    [NaT]), a date-time value (years up to 9999, so it may lie outside the
    range of a time stamp), or a text together with the instant the date
    parser of pandas reads in it, if any. *)
Inductive date_cell : Type :=
| NaT
| Datetime (ns : Z)
| Text (s : string) (parsed : option Z).

(** [pd.to_datetime(c, errors='coerce')]: the time stamp of the cell, or
    [None] for [NaT]. *)
Definition to_datetime (c : date_cell) : option Z :=
  match c with
  | NaT => None
  | Datetime ns => if Timestamp.in_bounds ns then Some ns else None
  | Text _ (Some ns) => if Timestamp.in_bounds ns then Some ns else None
  | Text _ None => None
  end.

(** The cell that holds a coerced value. *)
Definition of_datetime (t : option Z) : date_cell :=
  match t with
  | Some ns => Datetime ns
  | None => NaT
  end.

Definition notna {A : Type} (x : option A) : bool :=
  match x with
  | Some _ => true
  | None => false
  end.

(** A row of the sheet "Detail Pipeline". *)
Record detail_row : Type := {
  Sales_Name : option string;
  Date_Register : date_cell;
  Bulan_Closed : date_cell;
  Customer : option string;
  Project_Name : option string;
  Type_Product : option string;
  QTY : float;
  Harga_Satuan : float
}.

(** A row after [hitung_aging]: the columns of the sheet and the two new
    ones.  [Aging_Days] is a float64 column of whole numbers; [None] is its
    [NaN]. *)
Record aged_row : Type := {
  detail : detail_row;
  Aging_Days : option Z;
  Aging_Category : string
}.

(** ** hitung_aging *)

(** [(a - b).dt.days] in the frame a call returns: the days component of
    a time difference, the quotient rounded down; [NaT] on either side
    gives [NaN].  What a call does with a difference that leaves int64 is
    in [sub_datetimelike] below. *)
Definition dt_days (a b : option Z) : option Z :=
  match a, b with
  | Some x, Some y => Some ((x - y) / Timestamp.NS_PER_DAY)
  | _, _ => None
  end.

Definition categorize (days : option Z) : string :=
  match days with
  | None => "Unknown"
  | Some d =>
      if d <=? 30 then "≤30 Hari"
      else if d <=? 90 then "31–90 Hari"
      else ">90 Hari"
  end.

Definition aging_row (today : Z) (r : detail_row) : aged_row :=
  let reg := to_datetime (Date_Register r) in
  let closed := to_datetime (Bulan_Closed r) in
  let days :=
    if notna closed then dt_days closed reg
    else dt_days (Some today) reg in
  {| detail :=
       {| Sales_Name := Sales_Name r;
          Date_Register := of_datetime reg;
          Bulan_Closed := of_datetime closed;
          Customer := Customer r;
          Project_Name := Project_Name r;
          Type_Product := Type_Product r;
          QTY := QTY r;
          Harga_Satuan := Harga_Satuan r |};
     Aging_Days := days;
     Aging_Category := categorize days |}.

Definition hitung_aging (today : Z) (df : list detail_row) : list aged_row :=
  map (aging_row today) df.

(** ** hitung_profit *)

(** A row of the sheet "Order Philips", the two columns the merge uses. *)
Record order_row : Type := {
  Nama_Produk : option string;
  Harga_Perolehan : float
}.

Definition key_eqb (a b : option string) : bool :=
  match a, b with
  | Some x, Some y => String.eqb x y
  | None, None => true
  | _, _ => false
  end.

(** [order_df.dropna(subset=['Nama Produk', 'Harga Perolehan'])] *)
Definition dropna (order_df : list order_row) : list order_row :=
  filter (fun o => notna (Nama_Produk o) && negb (is_nan (Harga_Perolehan o)))
         order_df.

(** [order_df.drop_duplicates(subset=['Nama Produk'], keep='first')], with
    the names met so far. *)
Fixpoint drop_duplicates_from (seen : list (option string))
    (order_df : list order_row) : list order_row :=
  match order_df with
  | [] => []
  | o :: rest =>
      if existsb (key_eqb (Nama_Produk o)) seen
      then drop_duplicates_from seen rest
      else o :: drop_duplicates_from (Nama_Produk o :: seen) rest
  end.

Definition drop_duplicates (order_df : list order_row) : list order_row :=
  drop_duplicates_from [] order_df.

(** A row of the left merge: the left row and the columns of the right
    row it met, missing when it met none. *)
Record merged_row : Type := {
  left_row : aged_row;
  right_row : order_row
}.

Definition no_match : order_row :=
  {| Nama_Produk := None; Harga_Perolehan := nan |}.

(** The rows of the merge that come from one left row: one for each right
    row with its key, in the order of the right frame, and one with missing
    right columns when there is none. *)
Definition merge_one (right : list order_row) (l : aged_row) : list merged_row :=
  match filter (fun o => key_eqb (Type_Product (detail l)) (Nama_Produk o)) right with
  | [] => [ {| left_row := l; right_row := no_match |} ]
  | ms => map (fun o => {| left_row := l; right_row := o |}) ms
  end.

(** The rows of
    [df.merge(right, left_on='Type Product', right_on='Nama Produk', how='left')];
    the check of the key columns that comes before them is in
    [merge_keys_refused] below. *)
Definition merge_left (df : list aged_row) (right : list order_row) : list merged_row :=
  flat_map (merge_one right) df.

(** A row after [hitung_profit]. *)
Record profit_row : Type := {
  merged : merged_row;
  Harga_Netto : float;
  Total_Jual_Netto : float;
  Total_Perolehan : float;
  Profit_Value : float;
  Profit_pct : float;
  Bulan_Transaksi : string
}.

(** [.dt.to_period('M').astype(str)] on one value. *)
Definition period_str (t : option Z) : string :=
  match t with
  | Some ns => Timestamp.strftime_Ym (Timestamp.to_period_M ns)
  | None => "NaT"
  end.

Definition profit_columns (m : merged_row) : profit_row :=
  let r := detail (left_row m) in
  let harga_netto := (Harga_Satuan r / (1 + PAJAK_RATE))%float in
  let total_jual_netto := (harga_netto * QTY r)%float in
  let total_perolehan := (Harga_Perolehan (right_row m) * QTY r)%float in
  let profit_value := (total_jual_netto - total_perolehan)%float in
  {| merged := m;
     Harga_Netto := harga_netto;
     Total_Jual_Netto := total_jual_netto;
     Total_Perolehan := total_perolehan;
     Profit_Value := profit_value;
     Profit_pct := (profit_value / total_jual_netto * 100)%float;
     Bulan_Transaksi := period_str (to_datetime (Date_Register r)) |}.

Definition hitung_profit (df : list aged_row) (order_df : list order_row)
    : list profit_row :=
  let order_df := dropna order_df in
  let order_df := drop_duplicates order_df in
  map profit_columns (merge_left df order_df).

(** The cost table the merge looks a product up in. *)
Definition cost_table (order_df : list order_row) : list order_row :=
  drop_duplicates (dropna order_df).

Definition lookup (table : list order_row) (key : option string) : option order_row :=
  find (fun o => key_eqb key (Nama_Produk o)) table.

(** The whole pass of the dashboard. *)
Definition pipeline (today : Z) (detail_df : list detail_row)
    (order_df : list order_row) : list profit_row :=
  hitung_profit (hitung_aging today detail_df) order_df.

(** The right columns a left row gets from a merge with the cost table. *)
Definition joined (order_df : list order_row) (l : aged_row) : order_row :=
  match lookup (cost_table order_df) (Type_Product (detail l)) with
  | Some o => o
  | None => no_match
  end.

(** ** The month filter of the dashboard *)

(** [Series.unique()]: the values in the order of their first occurrence. *)
Fixpoint unique_from (seen l : list string) : list string :=
  match l with
  | [] => []
  | x :: rest =>
      if existsb (String.eqb x) seen then unique_from seen rest
      else x :: unique_from (x :: seen) rest
  end.

Definition unique (l : list string) : list string := unique_from [] l.

Fixpoint insert_sorted (x : string) (l : list string) : list string :=
  match l with
  | [] => [x]
  | y :: rest => if String.leb x y then x :: l else y :: insert_sorted x rest
  end.

Definition sorted (l : list string) : list string :=
  fold_right insert_sorted [] l.

(** [sorted([m for m in detail_df['Bulan Transaksi'].unique() if m != 'NaT'])] *)
Definition valid_months (detail_df : list profit_row) : list string :=
  sorted (filter (fun m => negb (String.eqb m "NaT"))
                 (unique (map Bulan_Transaksi detail_df))).

(** ** What a call raises

    The definitions above give the frame a call returns.  A call can also
    raise: the subtraction of two date columns refuses a difference that
    leaves int64, and the merge refuses a key column of numbers against one
    of text.  The definitions below give the outcome of a call, the
    exception or the frame. *)

Inductive exception : Type :=
| OverflowError
| ValueError.

Inductive outcome (A : Type) : Type :=
| Returns (a : A)
| Raises (e : exception).

Arguments Returns {A} a.
Arguments Raises {A} e.

Definition INT64_MIN : Z := - 2 ^ 63.
Definition INT64_MAX : Z := 2 ^ 63 - 1.

(** One value of [a - b] on two date columns: the int64 difference, an
    [OverflowError] where it would wrap; the least int64 is [NaT]. *)
Definition sub_datetimelike (a b : option Z) : outcome (option Z) :=
  match a, b with
  | Some x, Some y =>
      let d := x - y in
      if (d <? INT64_MIN) || (INT64_MAX <? d) then Raises OverflowError
      else if d =? INT64_MIN then Returns None
      else Returns (Some d)
  | _, _ => Returns None
  end.

(** One value of [today - b], which pandas computes as [-(b - today)]. *)
Definition rsub_datetimelike (today : Z) (b : option Z) : outcome (option Z) :=
  match sub_datetimelike b (Some today) with
  | Returns d => Returns (option_map Z.opp d)
  | Raises e => Raises e
  end.

(** [.dt.days] of one time difference. *)
Definition td_days (d : option Z) : option Z :=
  option_map (fun d => d / Timestamp.NS_PER_DAY) d.

(** The row with its dates coerced and the two aging columns. *)
Definition with_aging (r : detail_row) (days : option Z) : aged_row :=
  {| detail :=
       {| Sales_Name := Sales_Name r;
          Date_Register := of_datetime (to_datetime (Date_Register r));
          Bulan_Closed := of_datetime (to_datetime (Bulan_Closed r));
          Customer := Customer r;
          Project_Name := Project_Name r;
          Type_Product := Type_Product r;
          QTY := QTY r;
          Harga_Satuan := Harga_Satuan r |};
     Aging_Days := days;
     Aging_Category := categorize days |}.

(** One row of lines 29-49.  [np.where] gets both differences computed,
    so each of them can raise, whichever of them the row uses. *)
Definition call_aging_row (today : Z) (r : detail_row) : outcome aged_row :=
  let reg := to_datetime (Date_Register r) in
  let closed := to_datetime (Bulan_Closed r) in
  match sub_datetimelike closed reg with
  | Raises e => Raises e
  | Returns since_closed =>
      match rsub_datetimelike today reg with
      | Raises e => Raises e
      | Returns since_today =>
          Returns (with_aging r (if notna closed then td_days since_closed
                                 else td_days since_today))
      end
  end.

Fixpoint traverse {A B : Type} (f : A -> outcome B) (l : list A)
    : outcome (list B) :=
  match l with
  | [] => Returns []
  | x :: rest =>
      match f x with
      | Raises e => Raises e
      | Returns y =>
          match traverse f rest with
          | Raises e => Raises e
          | Returns ys => Returns (y :: ys)
          end
      end
  end.

(** A call of [hitung_aging].  The columns are computed one after the
    other over all rows; the only exception is the [OverflowError] of a
    difference, so the outcome is that of going through the rows. *)
Definition call_hitung_aging (today : Z) (df : list detail_row)
    : outcome (list aged_row) :=
  traverse (call_aging_row today) df.

(** Whether a difference of the row wraps in int64. *)
Definition wraps (a b : option Z) : bool :=
  match a, b with
  | Some x, Some y => (x - y <? INT64_MIN) || (INT64_MAX <? x - y)
  | _, _ => false
  end.

Definition aging_overflows (today : Z) (r : detail_row) : bool :=
  wraps (to_datetime (Bulan_Closed r)) (to_datetime (Date_Register r))
  || wraps (to_datetime (Date_Register r)) (Some today).

(** Whether two instants are less than 2^63 nanoseconds apart. *)
Definition span_fits (a b : option Z) : bool :=
  match a, b with
  | Some x, Some y => Z.abs (x - y) <=? INT64_MAX
  | _, _ => true
  end.

(** Whether the registration date of every row is less than 2^63
    nanoseconds, some 292 years, from its closing date and from today. *)
Definition spans_fit (today : Z) (df : list detail_row) : bool :=
  forallb (fun r =>
             span_fits (to_datetime (Bulan_Closed r)) (to_datetime (Date_Register r))
             && span_fits (Some today) (to_datetime (Date_Register r)))
          df.

(** The dtype of a column of names. *)
Inductive dtype : Type :=
| float64
| object.

Definition dtype_eqb (a b : dtype) : bool :=
  match a, b with
  | float64, float64 | object, object => true
  | _, _ => false
  end.

(** The dtype a column of names is loaded with: numbers when it has cells
    and every one is empty, objects otherwise. *)
Definition key_dtype (col : list (option string)) : dtype :=
  match col with
  | [] => object
  | _ :: _ => if existsb notna col then object else float64
  end.

Definition no_rows {A : Type} (l : list A) : bool :=
  match l with
  | [] => true
  | _ :: _ => false
  end.

(** The check of the key columns by [merge]: left out when exactly one
    side has no rows, it refuses a column of numbers against one of
    text. *)
Definition merge_keys_refused (left_keys right_keys : list (option string))
    (left_dtype right_dtype : dtype) : bool :=
  if xorb (no_rows left_keys) (no_rows right_keys) then false
  else negb (dtype_eqb left_dtype right_dtype).

(** A call of [hitung_profit].  [dropna] and [drop_duplicates] keep the
    dtype of the column of product names. *)
Definition call_hitung_profit (df : list aged_row) (order_df : list order_row)
    : outcome (list profit_row) :=
  let right := drop_duplicates (dropna order_df) in
  if merge_keys_refused (map (fun l => Type_Product (detail l)) df)
                        (map Nama_Produk right)
                        (key_dtype (map (fun l => Type_Product (detail l)) df))
                        (key_dtype (map Nama_Produk order_df))
  then Raises ValueError
  else Returns (map profit_columns (merge_left df right)).

(** Lines 105-106. *)
Definition call_pipeline (today : Z) (detail_df : list detail_row)
    (order_df : list order_row) : outcome (list profit_row) :=
  match call_hitung_aging today detail_df with
  | Raises e => Raises e
  | Returns aged => call_hitung_profit aged order_df
  end.

(** Whether an entry of the cost sheet has its name and its cost. *)
Definition is_complete (o : order_row) : bool :=
  notna (Nama_Produk o) && negb (is_nan (Harga_Perolehan o)).

(** The first entry of the sheet that has the name [key] and is
    complete. *)
Definition first_complete (order_df : list order_row) (key : option string)
    : option order_row :=
  find (fun o => is_complete o && key_eqb key (Nama_Produk o)) order_df.

Definition has_product_type (l : aged_row) : bool :=
  notna (Type_Product (detail l)).

(** ** The words of the specification *)

(** Whole days of a difference, cut towards zero. *)
Definition truncated_days (a b : Z) : Z :=
  Z.quot (a - b) Timestamp.NS_PER_DAY.

(** The labels of the aging category. *)
Definition aging_labels : list string :=
  ["Unknown"; "≤30 Hari"; "31–90 Hari"; ">90 Hari"]%string.

(** ** Sample data *)

Definition sample (reg closed : date_cell) (product : string)
    (qty price : float) : detail_row :=
  {| Sales_Name := Some "Sari"%string;
     Date_Register := reg;
     Bulan_Closed := closed;
     Customer := Some "PT Maju"%string;
     Project_Name := Some "Gudang A"%string;
     Type_Product := Some product;
     QTY := qty;
     Harga_Satuan := price |}.

Definition midnight (y m d : Z) : Z := Timestamp.of_civil y m d 0.
Definition noon (y m d : Z) : Z := Timestamp.of_civil y m d 43200000000000.

(** Registered 2024-01-01, still open, two units of X at 111. *)
Definition open_project : detail_row :=
  sample (Datetime (midnight 2024 1 1)) NaT "X" 2 111.

(** The same project with a product the cost sheet does not have. *)
Definition unknown_product : detail_row :=
  sample (Datetime (midnight 2024 1 1)) NaT "Y" 2 111.

(** Closed at noon of the day before its registration. *)
Definition closed_before_register : detail_row :=
  sample (Datetime (midnight 2024 1 2)) (Datetime (noon 2024 1 1)) "X" 2 111.

(** Closed thirty days after its registration. *)
Definition closed_after_30 : detail_row :=
  sample (Datetime (midnight 2024 1 1)) (Datetime (midnight 2024 1 31)) "X" 2 111.

(** A registration date that is no date. *)
Definition unparseable_register : detail_row :=
  sample (Text "n/a" None) NaT "X" 2 111.

(** Sold for nothing. *)
Definition zero_price : detail_row :=
  sample (Datetime (midnight 2024 1 1)) NaT "X" 2 0.

Definition order_X (cost : float) : order_row :=
  {| Nama_Produk := Some "X"%string; Harga_Perolehan := cost |}.

Definition today_2024_04_30 : Z := noon 2024 4 30.

(** ** The styling and the month selection of the dashboard *)

(** [pd.notna] of a cell of a date column. *)
Definition cell_notna (c : date_cell) : bool :=
  match c with
  | NaT => false
  | _ => true
  end.

(** [len(row)]: the columns of the frame after [hitung_profit], eight of
    the sheet, two of the aging, two of the merge and six of the profit. *)
Definition row_len : nat := 18.

Definition color_aging (row : profit_row) : list string :=
  let a := left_row (merged row) in
  if cell_notna (Bulan_Closed (detail a))
  then repeat "background-color: lightgreen"%string row_len
  else if match Aging_Days a with
          | Some d => 90 <? d
          | None => false
          end
       then repeat "color: red"%string row_len
       else repeat ""%string row_len.

(** [detail_df[detail_df['Bulan Transaksi'] == bulan_terpilih]] *)
Definition df_bulan (detail_df : list profit_row) (bulan_terpilih : string)
    : list profit_row :=
  filter (fun r => String.eqb (Bulan_Transaksi r) bulan_terpilih) detail_df.

(** Registered in the year 3000, which no time stamp reaches. *)
Definition far_future_register : detail_row :=
  sample (Datetime (midnight 3000 1 1)) NaT "X" 2 111.

(** Registered and closed in January 1700. *)
Definition closed_in_1700 : detail_row :=
  sample (Datetime (midnight 1700 1 1)) (Datetime (midnight 1700 1 31)) "X" 2 111.

(** A record without a product type. *)
Definition no_product_type : detail_row :=
  {| Sales_Name := Some "Sari"%string;
     Date_Register := Datetime (midnight 2024 1 1);
     Bulan_Closed := NaT;
     Customer := Some "PT Maju"%string;
     Project_Name := Some "Gudang A"%string;
     Type_Product := None;
     QTY := 2;
     Harga_Satuan := 111 |}.

(** * Properties of [hitung_aging] *)

Section Aging.

Variable today : Z.

Lemma hitung_aging_nth (df : list detail_row) (i : nat) :
  nth_error (hitung_aging today df) i = option_map (aging_row today) (nth_error df i).
Proof. unfold hitung_aging. apply nth_error_map. Qed.

Lemma hitung_aging_length (df : list detail_row) :
  List.length (hitung_aging today df) = List.length df.
Proof. unfold hitung_aging. apply length_map. Qed.

(** The days component is the floor of the difference. *)
Lemma dt_days_floor (a b d : Z) :
  dt_days (Some a) (Some b) = Some d ->
  Timestamp.NS_PER_DAY * d <= a - b < Timestamp.NS_PER_DAY * d + Timestamp.NS_PER_DAY.
Proof.
  unfold dt_days, Timestamp.NS_PER_DAY. intros [= <-].
  Z.div_mod_to_equations. lia.
Qed.

Lemma dt_days_missing (a : option Z) : dt_days a None = None.
Proof. destruct a; reflexivity. Qed.

(** The day count is missing exactly when the registration date is. *)
Lemma aging_days_missing_iff (r : detail_row) :
  Aging_Days (aging_row today r) = None <-> to_datetime (Date_Register r) = None.
Proof.
  unfold aging_row; simpl.
  destruct (to_datetime (Bulan_Closed r)), (to_datetime (Date_Register r));
    simpl; split; congruence.
Qed.

Lemma categorize_cases (days : option Z) :
  categorize days = "Unknown"%string \/ categorize days = "≤30 Hari"%string
  \/ categorize days = "31–90 Hari"%string \/ categorize days = ">90 Hari"%string.
Proof.
  destruct days as [d|]; simpl; [|now left].
  destruct (d <=? 30); [now right; left|].
  destruct (d <=? 90); [now right; right; left | now right; right; right].
Qed.

(** Coercing a coerced cell changes nothing. *)
Lemma to_datetime_of_datetime (c : date_cell) :
  to_datetime (of_datetime (to_datetime c)) = to_datetime c.
Proof.
  destruct c as [|ns|s [ns|]]; simpl; try reflexivity;
    destruct (Timestamp.in_bounds ns) eqn:E; simpl; rewrite ?E; reflexivity.
Qed.

End Aging.

(** ** The outcome of a call *)

Section AgingCall.

Ltac int64_bounds :=
  unfold INT64_MIN, INT64_MAX in *;
  change (2 ^ 63) with 9223372036854775808 in *.

Ltac decide_int64 :=
  repeat match goal with
         | |- context [?a <? ?b] => destruct (Z.ltb_spec a b); try lia
         | |- context [?a =? ?b] => destruct (Z.eqb_spec a b); try lia
         end.

(** Where the spans fit, a row of the call is the row of the frame. *)
Lemma call_aging_row_fits (today : Z) (r : detail_row) :
  span_fits (to_datetime (Bulan_Closed r)) (to_datetime (Date_Register r)) = true ->
  span_fits (Some today) (to_datetime (Date_Register r)) = true ->
  call_aging_row today r = Returns (aging_row today r).
Proof.
  unfold call_aging_row, aging_row, with_aging, rsub_datetimelike,
    sub_datetimelike, span_fits, dt_days, td_days.
  destruct (to_datetime (Bulan_Closed r)) as [c|];
    destruct (to_datetime (Date_Register r)) as [g|];
    cbn [notna option_map]; intros Hc Ht; try reflexivity;
    rewrite ?Z.leb_le in *; int64_bounds; cbv zeta; decide_int64;
    cbn [orb notna option_map]; try reflexivity.
  replace (- (g - today)) with (today - g) by lia. reflexivity.
Qed.

Lemma call_hitung_aging_fits (today : Z) (df : list detail_row) :
  spans_fit today df = true ->
  call_hitung_aging today df = Returns (hitung_aging today df).
Proof.
  unfold call_hitung_aging, hitung_aging, spans_fit.
  induction df as [|r df IH]; simpl; [reflexivity|].
  rewrite !andb_true_iff. intros [[Hc Ht] Hrest].
  now rewrite (call_aging_row_fits today r Hc Ht), (IH Hrest).
Qed.

(** A row raises exactly when one of its two differences wraps. *)
Lemma call_aging_row_outcome (today : Z) (r : detail_row) :
  (aging_overflows today r = true /\ call_aging_row today r = Raises OverflowError)
  \/ (aging_overflows today r = false /\ exists a, call_aging_row today r = Returns a).
Proof.
  unfold aging_overflows, call_aging_row, rsub_datetimelike, sub_datetimelike, wraps.
  destruct (to_datetime (Bulan_Closed r)) as [c|];
    destruct (to_datetime (Date_Register r)) as [g|]; cbv zeta;
    try (right; split; [reflexivity | eexists; reflexivity]).
  - destruct ((c - g <? INT64_MIN) || (INT64_MAX <? c - g)); [now left|].
    destruct ((g - today <? INT64_MIN) || (INT64_MAX <? g - today)); [left|right].
    + split; [reflexivity|]. now destruct (c - g =? INT64_MIN).
    + split; [reflexivity|].
      destruct (c - g =? INT64_MIN); destruct (g - today =? INT64_MIN);
        eexists; reflexivity.
  - destruct ((g - today <? INT64_MIN) || (INT64_MAX <? g - today)); [now left|].
    right. split; [reflexivity|].
    destruct (g - today =? INT64_MIN); eexists; reflexivity.
Qed.

Lemma call_hitung_aging_outcome (today : Z) (df : list detail_row) :
  (existsb (aging_overflows today) df = true
   /\ call_hitung_aging today df = Raises OverflowError)
  \/ (existsb (aging_overflows today) df = false
      /\ exists rows, call_hitung_aging today df = Returns rows
                      /\ List.length rows = List.length df).
Proof.
  unfold call_hitung_aging.
  induction df as [|r df IH]; simpl.
  - right. split; [reflexivity|]. now exists [].
  - destruct (call_aging_row_outcome today r) as [[Ho Hc] | [Ho (a & Hc)]];
      rewrite Ho, Hc; simpl; [now left|].
    destruct IH as [[He Ht] | [He (rows & Ht & Hlen)]]; rewrite He, Ht.
    + now left.
    + right. split; [reflexivity|]. exists (a :: rows). simpl. now rewrite Hlen.
Qed.

(** The row of a closed project does not depend on the instant of the
    call that returns it. *)
Lemma call_aging_row_closed (today today' : Z) (r : detail_row) (a a' : aged_row) :
  notna (to_datetime (Bulan_Closed r)) = true ->
  call_aging_row today r = Returns a ->
  call_aging_row today' r = Returns a' ->
  a = a'.
Proof.
  unfold call_aging_row. intros Hclosed. rewrite Hclosed.
  destruct (sub_datetimelike (to_datetime (Bulan_Closed r))
                             (to_datetime (Date_Register r))); [|discriminate].
  destruct (rsub_datetimelike today _); [|discriminate].
  destruct (rsub_datetimelike today' _); [|discriminate].
  congruence.
Qed.

End AgingCall.

(** ** The day count *)


(** The days of a row of the frame are the floor of its difference. *)
Lemma aging_row_days_floor (today : Z) (r : detail_row) (reg : Z) :
  to_datetime (Date_Register r) = Some reg ->
  exists d,
    Aging_Days (aging_row today r) = Some d /\
    let stop := match to_datetime (Bulan_Closed r) with
                | Some closed => closed
                | None => today
                end in
    Timestamp.NS_PER_DAY * d <= stop - reg
      < Timestamp.NS_PER_DAY * d + Timestamp.NS_PER_DAY /\
    (reg <= stop -> d = truncated_days stop reg).
Proof.
  intros Hreg. unfold aging_row. rewrite Hreg.
  destruct (to_datetime (Bulan_Closed r)) as [closed|]; simpl;
    eexists; (split; [reflexivity|]);
    (split; [apply dt_days_floor; reflexivity|]);
    intros Hle; unfold truncated_days;
    rewrite Z.quot_div_nonneg by (unfold Timestamp.NS_PER_DAY; lia);
    reflexivity.
Qed.



Example registered_1700_raises_in_2024 :
  call_hitung_aging today_2024_04_30 [closed_in_1700] = Raises OverflowError
  /\ call_hitung_aging 0 [closed_in_1700] = Returns (hitung_aging 0 [closed_in_1700])
  /\ map Aging_Days (hitung_aging 0 [closed_in_1700]) = [Some 30].
Proof. repeat split; reflexivity. Qed.

Example open_project_is_120_days_old :
  map Aging_Days (hitung_aging today_2024_04_30 [open_project]) = [Some 120].
Proof. reflexivity. Qed.

(** ** The category *)

(** C3, as the specification words it, fails on the labels: thirty aging
    days are labelled "≤30 Hari", not "≤30 Days". *)
Lemma aging_category_label_not_days :
  map Aging_Days (hitung_aging today_2024_04_30 [closed_after_30]) = [Some 30] /\
  map Aging_Category (hitung_aging today_2024_04_30 [closed_after_30])
  <> ["≤30 Days"%string].
Proof. split; [reflexivity | vm_compute; discriminate]. Qed.

(** C3 (amended): an unparseable registration date gives "Unknown"; aging
    days up to 30, negative ones among them, give "≤30 Hari"; from 31 to 90
    "31–90 Hari"; above 90 ">90 Hari". *)
Theorem hitung_aging_category (today : Z) (df : list detail_row) (i : nat)
    (r : detail_row) :
  nth_error df i = Some r ->
  exists out,
    nth_error (hitung_aging today df) i = Some out /\
    (to_datetime (Date_Register r) = None ->
     Aging_Days out = None /\ Aging_Category out = "Unknown"%string) /\
    (forall d, Aging_Days out = Some d ->
       (d <= 30 -> Aging_Category out = "≤30 Hari"%string) /\
       (30 < d <= 90 -> Aging_Category out = "31–90 Hari"%string) /\
       (90 < d -> Aging_Category out = ">90 Hari"%string)).
Proof.
  intros Hr. rewrite hitung_aging_nth, Hr. simpl.
  eexists; split; [reflexivity|]. split.
  - intros Hreg.
    assert (Hd : Aging_Days (aging_row today r) = None)
      by now apply aging_days_missing_iff.
    split; [exact Hd|].
    unfold aging_row in *; simpl in *. now rewrite Hd.
  - intros d Hd. unfold aging_row in *; simpl in *. rewrite Hd. simpl.
    destruct (Z.leb_spec d 30); destruct (Z.leb_spec d 90);
      repeat split; intros; try reflexivity; lia.
Qed.

Lemma hitung_aging_category_witness :
  exists out,
    nth_error (hitung_aging today_2024_04_30 [closed_after_30]) 0 = Some out /\
    (to_datetime (Date_Register closed_after_30) = None ->
     Aging_Days out = None /\ Aging_Category out = "Unknown"%string) /\
    (forall d, Aging_Days out = Some d ->
       (d <= 30 -> Aging_Category out = "≤30 Hari"%string) /\
       (30 < d <= 90 -> Aging_Category out = "31–90 Hari"%string) /\
       (90 < d -> Aging_Category out = ">90 Hari"%string)).
Proof.
  apply (hitung_aging_category today_2024_04_30 [closed_after_30] 0 closed_after_30).
  reflexivity.
Defined.

Example category_boundaries :
  map (fun d => categorize (Some d)) [-5; 30; 31; 90; 91]
  = ["≤30 Hari"; "≤30 Hari"; "31–90 Hari"; "31–90 Hari"; ">90 Hari"]%string.
Proof. reflexivity. Qed.

(** C10: every category that [hitung_aging] assigns is one of the four
    labels "Unknown", "≤30 Hari", "31–90 Hari", ">90 Hari"; [categorize] has
    a label for every day count and for the missing one. *)
Theorem aging_category_enumeration (today : Z) (df : list detail_row) :
  Forall (fun out => In (Aging_Category out) aging_labels) (hitung_aging today df).
Proof.
  unfold hitung_aging. apply Forall_map, Forall_forall. intros r _.
  unfold aging_row, aging_labels; simpl.
  match goal with |- context [categorize ?x] =>
    destruct (categorize_cases x) as [E | [E | [E | E]]]; rewrite E end; auto.
Qed.

(** ** The frame *)

(** C9, as the specification words it, fails: the date columns are not
    kept as loaded, a text that is no date is replaced by [NaT]. *)
Lemma hitung_aging_rewrites_dates :
  map detail (hitung_aging today_2024_04_30 [unparseable_register])
  <> [unparseable_register].
Proof. vm_compute. discriminate. Qed.

(** C9 (amended): [hitung_aging] returns one row for each row, in order;
    it adds the aging days and the aging category and replaces the two date
    columns by their coerced time stamps, which leaves a time stamp and a
    missing date as they are and reads the same when coerced again; every
    other column is unchanged. *)
Theorem hitung_aging_frame (today : Z) (df : list detail_row) :
  Forall2 (fun r out =>
             Sales_Name (detail out) = Sales_Name r /\
             Customer (detail out) = Customer r /\
             Project_Name (detail out) = Project_Name r /\
             Type_Product (detail out) = Type_Product r /\
             QTY (detail out) = QTY r /\
             Harga_Satuan (detail out) = Harga_Satuan r /\
             Date_Register (detail out) = of_datetime (to_datetime (Date_Register r)) /\
             Bulan_Closed (detail out) = of_datetime (to_datetime (Bulan_Closed r)) /\
             to_datetime (Date_Register (detail out)) = to_datetime (Date_Register r) /\
             to_datetime (Bulan_Closed (detail out)) = to_datetime (Bulan_Closed r))
          df (hitung_aging today df)
  /\ (forall ns, Timestamp.in_bounds ns = true ->
        of_datetime (to_datetime (Datetime ns)) = Datetime ns)
  /\ of_datetime (to_datetime NaT) = NaT.
Proof.
  split; [|split].
  - induction df as [|r df IH]; simpl; constructor; [|exact IH].
    simpl. repeat split; try reflexivity; apply to_datetime_of_datetime.
  - intros ns Hns. simpl. now rewrite Hns.
  - reflexivity.
Qed.

(** * Properties of [hitung_profit] *)

(** ** Missing numbers *)

Section Float64.

Local Open Scope float_scope.

Lemma tax_divisor : 1 + PAJAK_RATE = 1.11.
Proof. reflexivity. Qed.

Lemma nan_mul (x : float) : nan * x = nan.
Proof. apply Prim2SF_inj. rewrite mul_spec. reflexivity. Qed.

Lemma sub_nan (x : float) : x - nan = nan.
Proof.
  apply Prim2SF_inj. rewrite sub_spec.
  change (Prim2SF nan) with S754_nan.
  destruct (Prim2SF x); reflexivity.
Qed.

Lemma nan_div (x : float) : nan / x = nan.
Proof. apply Prim2SF_inj. rewrite div_spec. reflexivity. Qed.

End Float64.

(** ** The cost table *)

Section CostTable.

Lemma key_eqb_eq (a b : option string) : key_eqb a b = true <-> a = b.
Proof.
  destruct a as [x|], b as [y|]; simpl; try (split; congruence).
  rewrite String.eqb_eq. split; congruence.
Qed.

Lemma key_eqb_refl (a : option string) : key_eqb a a = true.
Proof. now apply key_eqb_eq. Qed.

Lemma find_hd_filter {A : Type} (f : A -> bool) (l : list A) :
  find f l = hd_error (filter f l).
Proof.
  induction l as [|x l IH]; simpl; [reflexivity|].
  destruct (f x); [reflexivity | exact IH].
Qed.

(** The rows of a name in the table without duplicates: the first row of
    that name, unless the name was met before. *)
Lemma filter_drop_duplicates_from (key : option string)
    (order_df : list order_row) (seen : list (option string)) :
  filter (fun o => key_eqb key (Nama_Produk o)) (drop_duplicates_from seen order_df)
  = if existsb (key_eqb key) seen then []
    else match lookup order_df key with
         | Some o => [o]
         | None => []
         end.
Proof.
  unfold lookup. revert seen.
  induction order_df as [|o rest IH]; intros seen; simpl.
  - now destruct (existsb (key_eqb key) seen).
  - destruct (existsb (key_eqb (Nama_Produk o)) seen) eqn:Eseen.
    + rewrite IH. destruct (existsb (key_eqb key) seen) eqn:Ekey; [reflexivity|].
      destruct (key_eqb key (Nama_Produk o)) eqn:Eo; [|reflexivity].
      apply key_eqb_eq in Eo. subst key. congruence.
    + simpl. rewrite IH. simpl.
      destruct (key_eqb key (Nama_Produk o)) eqn:Eo; simpl.
      * apply key_eqb_eq in Eo. subst key. now rewrite Eseen.
      * reflexivity.
Qed.

Lemma lookup_drop_duplicates (key : option string) (order_df : list order_row) :
  lookup (drop_duplicates order_df) key = lookup order_df key.
Proof.
  unfold lookup at 1, drop_duplicates.
  rewrite find_hd_filter, filter_drop_duplicates_from. simpl.
  now destruct (lookup order_df key).
Qed.

Lemma drop_duplicates_from_fresh (order_df : list order_row)
    (seen : list (option string)) :
  Forall (fun o => ~ In (Nama_Produk o) seen) (drop_duplicates_from seen order_df)
  /\ NoDup (map Nama_Produk (drop_duplicates_from seen order_df)).
Proof.
  revert seen. induction order_df as [|o rest IH]; intros seen; simpl.
  - split; constructor.
  - destruct (existsb (key_eqb (Nama_Produk o)) seen) eqn:Eseen; [apply IH|].
    destruct (IH (Nama_Produk o :: seen)) as [Hfresh Hnodup].
    split; simpl.
    + constructor.
      * intros Hin.
        assert (existsb (key_eqb (Nama_Produk o)) seen = true); [|congruence].
        apply existsb_exists. exists (Nama_Produk o). split; [exact Hin|].
        apply key_eqb_refl.
      * eapply Forall_impl; [|exact Hfresh]. simpl. intros a Ha Hin.
        apply Ha. now right.
    + constructor; [|exact Hnodup].
      intros Hin. apply in_map_iff in Hin. destruct Hin as (o' & Heq & Hin).
      rewrite Forall_forall in Hfresh. apply (Hfresh o' Hin). left. now symmetry.
Qed.

Lemma drop_duplicates_from_incl (order_df : list order_row)
    (seen : list (option string)) :
  incl (drop_duplicates_from seen order_df) order_df.
Proof.
  revert seen. induction order_df as [|o rest IH]; intros seen; simpl.
  - apply incl_refl.
  - destruct (existsb (key_eqb (Nama_Produk o)) seen).
    + apply incl_tl, IH.
    + apply incl_cons; [now left|]. apply incl_tl, IH.
Qed.

Lemma dropna_complete (order_df : list order_row) :
  Forall (fun o => Nama_Produk o <> None /\ is_nan (Harga_Perolehan o) = false)
         (dropna order_df).
Proof.
  apply Forall_forall. intros o Hin. unfold dropna in Hin.
  apply filter_In in Hin. destruct Hin as [_ H].
  apply andb_true_iff in H. destruct H as [Hname Hcost].
  split.
  - destruct (Nama_Produk o); [discriminate | discriminate Hname].
  - now apply negb_true_iff.
Qed.

End CostTable.

(** ** The merge *)

Section Merge.

Variable order_df : list order_row.

Lemma merge_one_cost_table (l : aged_row) :
  merge_one (cost_table order_df) l
  = [ {| left_row := l; right_row := joined order_df l |} ].
Proof.
  unfold merge_one, joined, cost_table at 1, drop_duplicates.
  rewrite filter_drop_duplicates_from. simpl.
  rewrite <- (lookup_drop_duplicates _ (dropna order_df)).
  fold (cost_table order_df).
  now destruct (lookup (cost_table order_df) (Type_Product (detail l))).
Qed.

Lemma merge_left_cost_table (df : list aged_row) :
  merge_left df (cost_table order_df)
  = map (fun l => {| left_row := l; right_row := joined order_df l |}) df.
Proof.
  unfold merge_left. induction df as [|l df IH]; simpl; [reflexivity|].
  now rewrite merge_one_cost_table, IH.
Qed.

(** [hitung_profit] row by row. *)
Lemma hitung_profit_rows (df : list aged_row) :
  hitung_profit df order_df
  = map (fun l => profit_columns
                    {| left_row := l; right_row := joined order_df l |}) df.
Proof.
  unfold hitung_profit. fold (cost_table order_df).
  now rewrite merge_left_cost_table, map_map.
Qed.

Lemma hitung_profit_nth (df : list aged_row) (i : nat) :
  nth_error (hitung_profit df order_df) i
  = option_map (fun l => profit_columns
                           {| left_row := l; right_row := joined order_df l |})
               (nth_error df i).
Proof. rewrite hitung_profit_rows. apply nth_error_map. Qed.

End Merge.

(** ** Claims on the cost table and the merge *)

Section ProfitCall.

Lemma find_filter {A : Type} (f g : A -> bool) (l : list A) :
  find f (filter g l) = find (fun x => g x && f x) l.
Proof.
  induction l as [|x l IH]; simpl; [reflexivity|].
  destruct (g x); simpl; [|exact IH]. now destruct (f x).
Qed.

(** A look-up in the cost table finds the first complete entry of the
    sheet with that name. *)
Lemma lookup_first_complete (order_df : list order_row) (key : option string) :
  lookup (cost_table order_df) key = first_complete order_df key.
Proof.
  unfold cost_table. rewrite lookup_drop_duplicates.
  unfold lookup, dropna, first_complete. apply find_filter.
Qed.

Lemma lookup_found (table : list order_row) (key : option string) (o : order_row) :
  lookup table key = Some o -> In o table /\ Nama_Produk o = key.
Proof.
  unfold lookup. intros H. apply find_some in H. destruct H as [Hin Hk].
  split; [exact Hin|]. symmetry. now apply key_eqb_eq.
Qed.

Lemma existsb_of_map {A B : Type} (f : B -> bool) (g : A -> B) (l : list A) :
  existsb f (map g l) = existsb (fun x => f (g x)) l.
Proof.
  induction l as [|x l IH]; simpl; [reflexivity | now rewrite IH].
Qed.

Lemma NoDup_map_eq {A B : Type} (f : A -> B) (l : list A) (x y : A) :
  NoDup (map f l) -> In x l -> In y l -> f x = f y -> x = y.
Proof.
  induction l as [|z l IH]; simpl; [contradiction|].
  intros Hnd Hx Hy E. inversion Hnd as [|? ? Hz Hl]; subst.
  destruct Hx as [<- | Hx], Hy as [<- | Hy]; try reflexivity.
  - exfalso. apply Hz. rewrite E. now apply in_map.
  - exfalso. apply Hz. rewrite <- E. now apply in_map.
  - now apply IH.
Qed.

Lemma lookup_self (table : list order_row) (o : order_row) :
  In o table -> exists o', lookup table (Nama_Produk o) = Some o'.
Proof.
  intros Hin. unfold lookup.
  destruct (find _ table) as [o'|] eqn:E; [now exists o'|].
  apply (find_none _ _ E) in Hin. now rewrite key_eqb_refl in Hin.
Qed.

Lemma call_hitung_profit_returns (df : list aged_row) (order_df : list order_row)
    (rows : list profit_row) :
  call_hitung_profit df order_df = Returns rows -> rows = hitung_profit df order_df.
Proof.
  unfold call_hitung_profit, hitung_profit.
  destruct (merge_keys_refused _ _ _ _); [discriminate|]. now intros [= <-].
Qed.

Lemma key_dtype_object (col : list (option string)) :
  existsb notna col = true -> key_dtype col = object.
Proof.
  destruct col as [|c col]; [discriminate|]. unfold key_dtype.
  now intros ->.
Qed.

Lemma cost_table_names_object (order_df : list order_row) :
  cost_table order_df <> [] -> key_dtype (map Nama_Produk order_df) = object.
Proof.
  intros Hne. apply key_dtype_object.
  destruct (cost_table order_df) as [|o rest] eqn:E; [contradiction|].
  assert (Hin : In o (cost_table order_df)) by (rewrite E; now left).
  apply (drop_duplicates_from_incl (dropna order_df) []) in Hin.
  unfold dropna in Hin. apply filter_In in Hin. destruct Hin as [Hin Hc].
  apply andb_true_iff in Hc. destruct Hc as [Hname _].
  apply existsb_exists. exists (Nama_Produk o). split; [|exact Hname].
  now apply in_map.
Qed.

(** The merge accepts its keys when some record bears a product type, and
    when exactly one of the frame and the cost table has no rows. *)
Lemma merge_keys_accepted (df : list aged_row) (order_df : list order_row) :
  existsb has_product_type df = true
  \/ (df <> [] /\ cost_table order_df = [])
  \/ (df = [] /\ cost_table order_df <> []) ->
  call_hitung_profit df order_df = Returns (hitung_profit df order_df).
Proof.
  intros H. unfold call_hitung_profit, hitung_profit.
  fold (cost_table order_df).
  replace (merge_keys_refused _ _ _ _) with false; [reflexivity|].
  symmetry. unfold merge_keys_refused.
  destruct H as [Htype | [[Hdf Htable] | [Hdf Htable]]].
  - assert (Hleft : key_dtype (map (fun l => Type_Product (detail l)) df) = object).
    { apply key_dtype_object. rewrite existsb_of_map. exact Htype. }
    destruct df as [|l df]; [discriminate|].
    destruct (cost_table order_df) as [|o rest] eqn:E; [reflexivity|].
    rewrite Hleft, cost_table_names_object; [reflexivity|]. now rewrite E.
  - rewrite Htable. destruct df; [contradiction | reflexivity].
  - subst df. destruct (cost_table order_df); [contradiction | reflexivity].
Qed.

End ProfitCall.

(** C4: the cost table [hitung_profit] merges with is built by first
    discarding every entry without a product name or without an
    acquisition cost and then keeping, of the entries of one product name,
    the first: no entry of the table lacks a name or a cost, no name occurs
    twice, every entry is one of the sheet; looking a name up in the table
    gives the first entry of the sheet that has this name and is complete,
    so the name of every complete entry is kept, with the cost of the first
    of them; the table holds these first entries and no other; and they are
    what the merge gives the rows. *)
Theorem cost_table_first_occurrence (order_df : list order_row) :
  Forall (fun o => Nama_Produk o <> None /\ is_nan (Harga_Perolehan o) = false)
         (cost_table order_df)
  /\ NoDup (map Nama_Produk (cost_table order_df))
  /\ incl (cost_table order_df) order_df
  /\ (forall key, lookup (cost_table order_df) key = first_complete order_df key)
  /\ (forall o, In o order_df -> is_complete o = true ->
        exists kept,
          first_complete order_df (Nama_Produk o) = Some kept /\
          In kept (cost_table order_df) /\
          Nama_Produk kept = Nama_Produk o)
  /\ (forall o, In o (cost_table order_df)
                <-> first_complete order_df (Nama_Produk o) = Some o)
  /\ (forall df rows,
        call_hitung_profit df order_df = Returns rows ->
        map (fun out => right_row (merged out)) rows
        = map (fun l => match first_complete order_df (Type_Product (detail l)) with
                        | Some o => o
                        | None => no_match
                        end) df).
Proof.
  pose proof (dropna_complete order_df) as Hna.
  pose proof (drop_duplicates_from_incl (dropna order_df) []) as Hincl.
  assert (Hnodup : NoDup (map Nama_Produk (cost_table order_df)))
    by apply drop_duplicates_from_fresh.
  assert (Hfound : forall key o, first_complete order_df key = Some o ->
                                 In o (cost_table order_df) /\ Nama_Produk o = key).
  { intros key o H. rewrite <- lookup_first_complete in H.
    now apply lookup_found in H. }
  split; [|split; [|split; [|split; [|split; [|split]]]]].
  - rewrite Forall_forall in *. intros o Hin. apply Hna, Hincl, Hin.
  - exact Hnodup.
  - intros o Hin. apply Hincl in Hin. unfold dropna in Hin.
    now apply filter_In in Hin.
  - apply lookup_first_complete.
  - intros o Hin Hc.
    destruct (first_complete order_df (Nama_Produk o)) as [kept|] eqn:E.
    + exists kept. destruct (Hfound _ _ E) as [Hk Hn]. now repeat split.
    + unfold first_complete in E. apply (find_none _ _ E) in Hin.
      now rewrite Hc, key_eqb_refl in Hin.
  - intros o. split.
    + intros Hin. destruct (lookup_self _ _ Hin) as [o' E].
      pose proof E as E'. apply lookup_found in E'. destruct E' as [Hin' Hn].
      assert (o' = o) by (eapply NoDup_map_eq; eauto). subst o'.
      now rewrite <- lookup_first_complete.
    + intros E. now apply Hfound in E.
  - intros df rows Hcall. apply call_hitung_profit_returns in Hcall. subst rows.
    rewrite hitung_profit_rows, map_map. apply map_ext. intros l. simpl.
    unfold joined. now rewrite lookup_first_complete.
Qed.

Example cost_table_keeps_first :
  map Harga_Perolehan
      (cost_table [ {| Nama_Produk := Some "X"%string; Harga_Perolehan := nan |};
                    {| Nama_Produk := None; Harga_Perolehan := 40 |};
                    order_X 50; order_X 70 ])
  = [50%float].
Proof. reflexivity. Qed.




(** C1: a record whose product type has an entry in the cost table gets
    the net unit price [Harga Satuan / (1 + 0.11)], which is
    [Harga Satuan / 1.11], the net total sale [net unit price * QTY], the
    total acquisition cost [Harga Perolehan * QTY] with the cost of that
    entry, the profit value [net total sale - total acquisition cost] and
    the profit percentage [profit value / net total sale * 100]. *)
Theorem hitung_profit_equations (df : list aged_row) (order_df : list order_row)
    (i : nat) (r : aged_row) (entry : order_row) :
  nth_error df i = Some r ->
  lookup (cost_table order_df) (Type_Product (detail r)) = Some entry ->
  exists out,
    nth_error (hitung_profit df order_df) i = Some out /\
    left_row (merged out) = r /\
    right_row (merged out) = entry /\
    (Harga_Netto out = Harga_Satuan (detail r) / (1 + 0.11) /\
     Harga_Netto out = Harga_Satuan (detail r) / 1.11 /\
     Total_Jual_Netto out = Harga_Netto out * QTY (detail r) /\
     Total_Perolehan out = Harga_Perolehan entry * QTY (detail r) /\
     Profit_Value out = Total_Jual_Netto out - Total_Perolehan out /\
     Profit_pct out = Profit_Value out / Total_Jual_Netto out * 100)%float.
Proof.
  intros Hr Hentry. rewrite hitung_profit_nth, Hr. simpl.
  eexists; split; [reflexivity|].
  unfold joined. rewrite Hentry. simpl.
  repeat split; reflexivity.
Qed.

Lemma hitung_profit_equations_witness :
  exists out,
    nth_error (hitung_profit (hitung_aging today_2024_04_30 [open_project])
                             [order_X 50; order_X 70]) 0 = Some out /\
    left_row (merged out) = aging_row today_2024_04_30 open_project /\
    right_row (merged out) = order_X 50 /\
    (Harga_Netto out = 111 / (1 + 0.11) /\
     Harga_Netto out = 111 / 1.11 /\
     Total_Jual_Netto out = Harga_Netto out * 2 /\
     Total_Perolehan out = 50 * 2 /\
     Profit_Value out = Total_Jual_Netto out - Total_Perolehan out /\
     Profit_pct out = Profit_Value out / Total_Jual_Netto out * 100)%float.
Proof.
  apply (hitung_profit_equations (hitung_aging today_2024_04_30 [open_project])
           [order_X 50; order_X 70] 0 (aging_row today_2024_04_30 open_project)
           (order_X 50)); reflexivity.
Defined.




(** ** Division by a zero net total sale *)

Section ZeroSale.

Local Open Scope float_scope.

Lemma is_zero_spec (x : float) :
  is_zero x = true -> exists s, Prim2SF x = S754_zero s.
Proof.
  unfold is_zero. rewrite eqb_spec.
  change (Prim2SF zero) with (S754_zero false).
  destruct (Prim2SF x) as [s|[]| |[] m e]; simpl; try discriminate; eauto.
Qed.

Lemma zero_is_zero (x : float) (s : bool) :
  Prim2SF x = S754_zero s -> is_zero x = true.
Proof.
  intros H. unfold is_zero. rewrite eqb_spec, H. reflexivity.
Qed.

Lemma is_finite_spec (x : float) :
  is_finite x = true ->
  (exists s, Prim2SF x = S754_zero s) \/ (exists s m e, Prim2SF x = S754_finite s m e).
Proof.
  unfold is_finite, is_nan, is_infinity.
  rewrite !eqb_spec, abs_spec.
  change (Prim2SF infinity) with (S754_infinity false).
  destruct (Prim2SF x) as [s|[]| |s m e]; simpl; try discriminate; eauto.
Qed.

(** A zero price gives a zero net total sale for a finite quantity. *)
Lemma zero_price_net_total (price qty : float) :
  is_zero price = true -> is_finite qty = true ->
  exists s, Prim2SF (price / (1 + PAJAK_RATE) * qty) = S754_zero s.
Proof.
  intros Hp Hq.
  destruct (is_zero_spec _ Hp) as [sp Esp].
  rewrite mul_spec, div_spec, Esp.
  replace (Prim2SF (1 + PAJAK_RATE))
    with (S754_finite false 4998995586381251 (-52)) by reflexivity.
  destruct (is_finite_spec _ Hq) as [[sq Esq] | (sq & m & e & Esq)];
    rewrite Esq; simpl; eauto.
Qed.

(** What a quotient by zero, times 100, is. *)
Lemma div_zero_times_100 (x z : float) (s : bool) :
  Prim2SF z = S754_zero s ->
  Prim2SF (x / z * 100)
  = match Prim2SF x with
    | S754_nan | S754_zero _ => S754_nan
    | S754_infinity sx | S754_finite sx _ _ => S754_infinity (xorb (xorb sx s) false)
    end.
Proof.
  intros Hz. rewrite mul_spec, div_spec, Hz.
  replace (Prim2SF 100) with (S754_finite false 7036874417766400 (-46))
    by reflexivity.
  destruct (Prim2SF x); reflexivity.
Qed.

Lemma SFeqb_finite_refl (s : bool) (m : positive) (e : Z) :
  SFeqb (S754_finite s m e) (S754_finite s m e) = true.
Proof.
  unfold SFeqb, SFcompare.
  rewrite Z.compare_refl, Pos.compare_cont_refl. now destruct s.
Qed.

Lemma div_zero_times_100_class (x z : float) :
  is_zero z = true ->
  is_finite (x / z * 100) = false
  /\ is_nan (x / z * 100) = is_nan x || is_zero x
  /\ is_infinity (x / z * 100) = negb (is_nan x || is_zero x).
Proof.
  intros Hz. destruct (is_zero_spec _ Hz) as [s Es].
  pose proof (div_zero_times_100 x z s Es) as E.
  unfold is_finite, is_nan, is_infinity, is_zero.
  rewrite !eqb_spec, abs_spec, E.
  change (Prim2SF infinity) with (S754_infinity false).
  change (Prim2SF zero) with (S754_zero false).
  destruct (Prim2SF x) as [sx|sx| |sx m e].
  - repeat split; reflexivity.
  - destruct sx, s; repeat split; reflexivity.
  - repeat split; reflexivity.
  - rewrite SFeqb_finite_refl. destruct sx, s; repeat split; reflexivity.
Qed.

End ZeroSale.

(** * The calendar *)

Example epoch_is_1970 : Timestamp.civil_from_days 0 = (1970, 1, 1).
Proof. reflexivity. Qed.

Example leap_day_2024 :
  Timestamp.civil_from_days (Timestamp.days_from_civil 2024 2 29) = (2024, 2, 29).
Proof. reflexivity. Qed.

Example month_2024_03 :
  Timestamp.strftime_Ym
    (Timestamp.to_period_M (Timestamp.of_civil 2024 3 31 86399999999999))
  = "2024-03"%string.
Proof. reflexivity. Qed.

Section Calendar.

Import Timestamp.

Lemma days_before_year_mono (a b : Z) :
  a <= b -> days_before_year a <= days_before_year b.
Proof.
  unfold days_before_year. intros H. Z.div_mod_to_equations. lia.
Qed.

Lemma days_before_next_year (y : Z) :
  days_before_year (y + 1) = days_before_year y + year_length y.
Proof.
  unfold days_before_year, year_length, is_leap.
  replace (y + 1 - 1) with y by lia.
  destruct (y mod 4 =? 0) eqn:E4; destruct (y mod 100 =? 0) eqn:E100;
    destruct (y mod 400 =? 0) eqn:E400; cbn [andb orb negb];
    rewrite ?Z.eqb_eq, ?Z.eqb_neq in *;
    Z.div_mod_to_equations; lia.
Qed.

Lemma year_search_correct (fuel : nat) (y0 y n : Z) :
  days_before_year y <= n < days_before_year (y + 1) ->
  y0 <= y -> y - y0 <= Z.of_nat fuel ->
  year_search fuel y0 n = y.
Proof.
  intros Hn. revert y0. induction fuel as [|fuel IH]; intros y0 Hle Hfuel.
  - simpl. lia.
  - cbn [year_search]. destruct (Z.leb_spec (days_before_year (y0 + 1)) n) as [Hd|Hd].
    + assert (y0 + 1 <= y).
      { destruct (Z.le_gt_cases (y0 + 1) y) as [|Hgt]; [assumption|].
        assert (y0 = y) by lia. subst y0. lia. }
      apply IH; lia.
    + destruct (Z.le_gt_cases (y0 + 1) y) as [Hy|Hy]; [|lia].
      pose proof (days_before_year_mono _ _ Hy). lia.
Qed.

Lemma year_of_ordinal_correct (y n : Z) :
  days_before_year y <= n < days_before_year (y + 1) ->
  0 <= n <= 900000 ->
  year_of_ordinal n = y.
Proof.
  intros Hn Hrange. unfold year_of_ordinal.
  assert (Hy1 : 1 <= y).
  { destruct (Z.le_gt_cases 1 y) as [|Hlt]; [assumption|].
    assert (Hm : y + 1 <= 1) by lia.
    apply days_before_year_mono in Hm.
    change (days_before_year 1) with 0 in Hm. lia. }
  assert (Hlow : days_before_year (n / 366 + 1) <= n).
  { unfold days_before_year. Z.div_mod_to_equations. lia. }
  assert (Hq : n / 366 + 1 <= y).
  { destruct (Z.le_gt_cases (n / 366 + 1) y) as [|Hgt]; [assumption|].
    assert (Hm : y + 1 <= n / 366 + 1) by lia.
    apply days_before_year_mono in Hm. lia. }
  apply year_search_correct; [assumption | assumption |].
  assert (Hb : 365 * (y - 1) <= n).
  { destruct Hn as [Hn _]. unfold days_before_year in Hn.
    Z.div_mod_to_equations. lia. }
  change (Z.of_nat 8) with 8. Z.div_mod_to_equations. lia.
Qed.

Ltac split_ltb :=
  repeat match goal with
         | |- context [?a <? ?b] => destruct (Z.ltb_spec a b); try lia
         end.

(** Looks the constant months of the goal and of [H] up. *)
Ltac month_table H :=
  cbv [days_before_month days_in_month month_of_yday Z.eqb Pos.eqb orb]
    in H |- *.

Lemma valid_civil_cases (y m d : Z) :
  valid_civil y m d = true ->
  In m [1; 2; 3; 4; 5; 6; 7; 8; 9; 10; 11; 12]
  /\ 1 <= d <= days_in_month y m.
Proof.
  unfold valid_civil. rewrite !andb_true_iff, !Z.leb_le.
  intros [[[H1 H12] Hd1] Hd]. split; [simpl; lia | lia].
Qed.

(** The day of the year of a civil date lies in its year. *)
Lemma yday_in_year (y m d : Z) :
  valid_civil y m d = true ->
  0 <= days_before_month y m + (d - 1) < year_length y.
Proof.
  intros H. apply valid_civil_cases in H. destruct H as [Hm Hd].
  unfold year_length. simpl in Hm.
  repeat (destruct Hm as [<- | Hm]); try contradiction;
    month_table Hd; destruct (is_leap y); lia.
Qed.

Lemma month_of_yday_correct (y m d : Z) :
  valid_civil y m d = true ->
  month_of_yday y [1; 2; 3; 4; 5; 6; 7; 8; 9; 10; 11]
                (days_before_month y m + (d - 1)) = (m, d).
Proof.
  intros H. apply valid_civil_cases in H. destruct H as [Hm Hd].
  simpl in Hm.
  repeat (destruct Hm as [<- | Hm]); try contradiction;
    month_table Hd; destruct (is_leap y); split_ltb; f_equal; lia.
Qed.

(** A civil date is read back from its day count. *)
Lemma civil_from_days_from_civil (y m d : Z) :
  valid_civil y m d = true ->
  0 <= days_from_civil y m d + days_before_year 1970 <= 900000 ->
  civil_from_days (days_from_civil y m d) = (y, m, d).
Proof.
  intros Hv Hrange. unfold civil_from_days.
  pose proof (yday_in_year y m d Hv) as Hyd.
  assert (Hy : year_of_ordinal (days_from_civil y m d + days_before_year 1970) = y).
  { apply year_of_ordinal_correct; [|assumption].
    rewrite days_before_next_year. unfold days_from_civil. lia. }
  rewrite Hy.
  replace (days_from_civil y m d + days_before_year 1970 - days_before_year y)
    with (days_before_month y m + (d - 1)) by (unfold days_from_civil; lia).
  now rewrite month_of_yday_correct.
Qed.

(** Any instant of a day of month [m] of year [y] is in the period
    ([y], [m]). *)
Lemma to_period_M_of_civil (y m d tod : Z) :
  valid_civil y m d = true ->
  0 <= tod < NS_PER_DAY ->
  in_bounds (of_civil y m d tod) = true ->
  to_period_M (of_civil y m d tod) = (y, m).
Proof.
  intros Hv Htod Hb. unfold to_period_M.
  assert (Hdiv : of_civil y m d tod / NS_PER_DAY = days_from_civil y m d).
  { symmetry. apply Z.div_unique with (r := tod); [left; exact Htod|].
    unfold of_civil. lia. }
  rewrite Hdiv, civil_from_days_from_civil; [reflexivity | assumption |].
  unfold in_bounds, min_value, max_value in Hb.
  apply andb_true_iff in Hb. rewrite !Z.leb_le in Hb.
  unfold of_civil, NS_PER_DAY in *.
  change (days_before_year 1970) with 719162.
  change (2 ^ 63) with 9223372036854775808 in Hb. lia.
Qed.

End Calendar.

(** * The zero sale and the transaction month *)

(** C7, as the specification words it, fails: with a price of zero and a
    cost of 50 the net total sale is zero and the profit percentage is
    minus infinity, a number that is not NaN. *)
Lemma zero_price_profit_pct_infinite :
  map (fun out => (is_zero (Total_Jual_Netto out), Profit_Value out,
                   Profit_pct out, is_nan (Profit_pct out)))
      (pipeline today_2024_04_30 [zero_price] [order_X 50])
  = [(true, (-100)%float, neg_infinity, false)].
Proof. reflexivity. Qed.

(** C7 (amended): a record with a unit sale price of zero and a finite
    quantity has a net total sale of zero, and [hitung_profit] gives it a
    row whose profit percentage is never a finite number: it is NaN when
    the profit value is NaN or zero, and plus or minus infinity
    otherwise. *)
Theorem zero_price_profit_pct (df : list aged_row) (order_df : list order_row)
    (i : nat) (r : aged_row) :
  nth_error df i = Some r ->
  is_zero (Harga_Satuan (detail r)) = true ->
  is_finite (QTY (detail r)) = true ->
  exists out,
    nth_error (hitung_profit df order_df) i = Some out /\
    is_zero (Total_Jual_Netto out) = true /\
    is_finite (Profit_pct out) = false /\
    is_nan (Profit_pct out)
      = (is_nan (Profit_Value out) || is_zero (Profit_Value out)) /\
    is_infinity (Profit_pct out)
      = negb (is_nan (Profit_Value out) || is_zero (Profit_Value out)).
Proof.
  intros Hr Hprice Hqty. rewrite hitung_profit_nth, Hr. simpl.
  eexists; split; [reflexivity|]. simpl.
  destruct (zero_price_net_total _ _ Hprice Hqty) as [s Hs].
  pose proof (zero_is_zero _ _ Hs) as Hz.
  split; [exact Hz|].
  apply div_zero_times_100_class, Hz.
Qed.

Lemma zero_price_profit_pct_witness :
  exists out,
    nth_error (hitung_profit (hitung_aging today_2024_04_30 [zero_price])
                             [order_X 50]) 0 = Some out /\
    is_zero (Total_Jual_Netto out) = true /\
    is_finite (Profit_pct out) = false /\
    is_nan (Profit_pct out)
      = (is_nan (Profit_Value out) || is_zero (Profit_Value out)) /\
    is_infinity (Profit_pct out)
      = negb (is_nan (Profit_Value out) || is_zero (Profit_Value out)).
Proof.
  apply (zero_price_profit_pct (hitung_aging today_2024_04_30 [zero_price])
           [order_X 50] 0 (aging_row today_2024_04_30 zero_price));
    reflexivity.
Defined.

Section Months.

Lemma to_datetime_in_bounds (c : date_cell) (ns : Z) :
  to_datetime c = Some ns -> Timestamp.in_bounds ns = true.
Proof.
  destruct c as [|t|s [t|]]; simpl; try discriminate;
    destruct (Timestamp.in_bounds t) eqn:E; congruence.
Qed.

Lemma insert_sorted_In (x y : string) (l : list string) :
  In y (insert_sorted x l) <-> y = x \/ In y l.
Proof.
  induction l as [|z l IH]; simpl.
  - intuition.
  - destruct (String.leb x z); simpl; [intuition|]. rewrite IH. intuition.
Qed.

Lemma sorted_In (y : string) (l : list string) : In y (sorted l) <-> In y l.
Proof.
  induction l as [|x l IH]; simpl; [reflexivity|].
  rewrite insert_sorted_In, IH. intuition.
Qed.

Lemma valid_months_not_NaT (detail_df : list profit_row) :
  ~ In "NaT"%string (valid_months detail_df).
Proof.
  unfold valid_months. rewrite sorted_In, filter_In. intros [_ H].
  discriminate H.
Qed.

End Months.

(** C8, as the specification words it, fails: the transaction month of a
    record whose registration date does not parse is the string "NaT". *)
Lemma transaction_month_literal_NaT :
  map Bulan_Transaksi (pipeline today_2024_04_30 [unparseable_register] [order_X 50])
  = ["NaT"%string].
Proof. reflexivity. Qed.

(** C8 (amended): the transaction month of a record whose registration
    date is an instant of day [d] of month [m] of year [y] is the year and
    the month written "YYYY-MM"; the one of a record whose registration
    date does not parse is the string "NaT", which the month filter of the
    dashboard leaves out by comparing with that string. *)
Theorem transaction_month (df : list aged_row) (order_df : list order_row)
    (i : nat) (r : aged_row) :
  nth_error df i = Some r ->
  exists out,
    nth_error (hitung_profit df order_df) i = Some out /\
    (forall y m d tod,
        Timestamp.valid_civil y m d = true ->
        0 <= tod < Timestamp.NS_PER_DAY ->
        to_datetime (Date_Register (detail r)) = Some (Timestamp.of_civil y m d tod) ->
        Bulan_Transaksi out = Timestamp.strftime_Ym (y, m)) /\
    (to_datetime (Date_Register (detail r)) = None ->
     Bulan_Transaksi out = "NaT"%string) /\
    ~ In "NaT"%string (valid_months (hitung_profit df order_df)).
Proof.
  intros Hr. rewrite hitung_profit_nth, Hr. simpl.
  eexists; split; [reflexivity|]. simpl. split; [|split].
  - intros y m d tod Hv Htod Hreg. rewrite Hreg. simpl.
    rewrite to_period_M_of_civil; [reflexivity | assumption | assumption |].
    eapply to_datetime_in_bounds, Hreg.
  - intros Hreg. now rewrite Hreg.
  - apply valid_months_not_NaT.
Qed.

Lemma transaction_month_witness :
  exists out,
    nth_error (hitung_profit (hitung_aging today_2024_04_30 [open_project])
                             [order_X 50]) 0 = Some out /\
    (forall y m d tod,
        Timestamp.valid_civil y m d = true ->
        0 <= tod < Timestamp.NS_PER_DAY ->
        to_datetime (Date_Register (detail (aging_row today_2024_04_30 open_project)))
        = Some (Timestamp.of_civil y m d tod) ->
        Bulan_Transaksi out = Timestamp.strftime_Ym (y, m)) /\
    (to_datetime (Date_Register (detail (aging_row today_2024_04_30 open_project)))
     = None ->
     Bulan_Transaksi out = "NaT"%string) /\
    ~ In "NaT"%string
        (valid_months (hitung_profit (hitung_aging today_2024_04_30 [open_project])
                                     [order_X 50])).
Proof.
  apply (transaction_month (hitung_aging today_2024_04_30 [open_project])
           [order_X 50] 0 (aging_row today_2024_04_30 open_project)).
  reflexivity.
Defined.

Example transaction_months_of_samples :
  map Bulan_Transaksi
      (pipeline today_2024_04_30
         [open_project; sample (Datetime (noon 2023 12 31)) NaT "X" 1 10;
          unparseable_register]
         [order_X 50])
  = ["2024-01"; "2023-12"; "NaT"]%string
  /\ valid_months
       (pipeline today_2024_04_30
          [open_project; sample (Datetime (noon 2023 12 31)) NaT "X" 1 10;
           unparseable_register]
          [order_X 50])
     = ["2023-12"; "2024-01"]%string.
Proof. split; reflexivity. Qed.

(** * Further properties of [hitung_aging] *)

Section AgingMore.

Lemma aging_row_again (today : Z) (r : detail_row) :
  aging_row today (detail (aging_row today r)) = aging_row today r.
Proof.
  unfold aging_row. simpl. now rewrite !to_datetime_of_datetime.
Qed.

Lemma div_day_mono (a b : Z) :
  a <= b -> a / Timestamp.NS_PER_DAY <= b / Timestamp.NS_PER_DAY.
Proof.
  intros H. apply Z.div_le_mono; [reflexivity | exact H].
Qed.

End AgingMore.

(** X1: running [hitung_aging] again on the rows it returned, at the same
    instant, gives the same rows: the coerced dates read as before. *)
Theorem hitung_aging_again (today : Z) (df : list detail_row) :
  hitung_aging today (map detail (hitung_aging today df)) = hitung_aging today df.
Proof.
  unfold hitung_aging. rewrite !map_map. apply map_ext.
  intros r. apply aging_row_again.
Qed.

(** X2: when every project has a closing date that parses, two calls of
    [hitung_aging] at different instants that both return give the same
    rows.  (Whether a call returns does depend on the instant, the
    difference to today being computed for closed projects too.) *)
Theorem closed_aging_ignores_today (today today' : Z) (df : list detail_row)
    (rows rows' : list aged_row) :
  Forall (fun r => notna (to_datetime (Bulan_Closed r)) = true) df ->
  call_hitung_aging today df = Returns rows ->
  call_hitung_aging today' df = Returns rows' ->
  rows = rows'.
Proof.
  unfold call_hitung_aging. intros H. revert rows rows'.
  induction H as [|r df Hr Hdf IH]; simpl; intros rows rows'.
  - congruence.
  - destruct (call_aging_row today r) as [a|] eqn:Ea; [|discriminate].
    destruct (call_aging_row today' r) as [a'|] eqn:Ea'; [|discriminate].
    destruct (traverse (call_aging_row today) df) as [t|]; [|discriminate].
    destruct (traverse (call_aging_row today') df) as [t'|]; [|discriminate].
    intros [= <-] [= <-].
    rewrite (call_aging_row_closed today today' r a a' Hr Ea Ea').
    now rewrite (IH t t').
Qed.

Lemma closed_aging_ignores_today_witness :
  hitung_aging today_2024_04_30 [closed_after_30; closed_before_register]
  = hitung_aging 0 [closed_after_30; closed_before_register].
Proof.
  apply (closed_aging_ignores_today today_2024_04_30 0
           [closed_after_30; closed_before_register]).
  - repeat constructor.
  - reflexivity.
  - reflexivity.
Defined.

(** X3: the aging days of an open project do not decrease as time goes
    by: computed at a later instant they are the same or more. *)
Theorem open_aging_grows (today today' : Z) (df : list detail_row) (i : nat)
    (a a' : aged_row) (d d' : Z) :
  today <= today' ->
  nth_error (hitung_aging today df) i = Some a ->
  nth_error (hitung_aging today' df) i = Some a' ->
  Bulan_Closed (detail a) = NaT ->
  Aging_Days a = Some d ->
  Aging_Days a' = Some d' ->
  d <= d'.
Proof.
  intros Hle Ha Ha' Hopen Hd Hd'.
  rewrite hitung_aging_nth in Ha, Ha'.
  destruct (nth_error df i) as [r|]; [|discriminate].
  simpl in Ha, Ha'. injection Ha as <-. injection Ha' as <-.
  unfold aging_row in *. simpl in *.
  destruct (to_datetime (Bulan_Closed r)); [discriminate|]. simpl in *.
  destruct (to_datetime (Date_Register r)) as [reg|]; [|discriminate].
  simpl in *. injection Hd as <-. injection Hd' as <-.
  apply div_day_mono. lia.
Qed.

Lemma open_aging_grows_witness : 120 <= 121.
Proof.
  apply (open_aging_grows today_2024_04_30 (noon 2024 5 1) [open_project] 0
           (aging_row today_2024_04_30 open_project)
           (aging_row (noon 2024 5 1) open_project) 120 121);
    [vm_compute; discriminate | reflexivity ..].
Defined.

(** X4: the category of a row tells the range of its aging days, the four
    labels being different: "Unknown" exactly for missing aging days,
    "≤30 Hari" exactly up to 30, "31–90 Hari" exactly from 31 to 90 and
    ">90 Hari" exactly above 90. *)
Theorem aging_category_tells_days (today : Z) (df : list detail_row) :
  Forall (fun out =>
            (Aging_Category out = "Unknown"%string <-> Aging_Days out = None) /\
            (Aging_Category out = "≤30 Hari"%string <->
               exists d, Aging_Days out = Some d /\ d <= 30) /\
            (Aging_Category out = "31–90 Hari"%string <->
               exists d, Aging_Days out = Some d /\ 30 < d <= 90) /\
            (Aging_Category out = ">90 Hari"%string <->
               exists d, Aging_Days out = Some d /\ 90 < d))
         (hitung_aging today df).
Proof.
  unfold hitung_aging. apply Forall_map, Forall_forall. intros r _.
  unfold aging_row. simpl.
  match goal with |- context [categorize ?x] => generalize x end.
  intros [d|]; simpl.
  - destruct (Z.leb_spec d 30); [|destruct (Z.leb_spec d 90)];
      repeat split; try discriminate;
      try (intros (d0 & [= <-] & ?); lia);
      try (intros _; exists d; split; [reflexivity | lia]).
  - repeat split; try discriminate; try reflexivity;
      intros (d0 & [=] & _).
Qed.

(** X5: on a frame whose spans fit, the aging days of a record whose
    registration date parses are negative exactly when the closing date,
    or the current instant of an open project, lies before the registration
    date; such a record is in the category "≤30 Hari". *)
Theorem negative_aging (today : Z) (df : list detail_row) (i : nat)
    (r : detail_row) (reg : Z) :
  spans_fit today df = true ->
  nth_error df i = Some r ->
  to_datetime (Date_Register r) = Some reg ->
  exists rows out d,
    call_hitung_aging today df = Returns rows /\
    nth_error rows i = Some out /\
    Aging_Days out = Some d /\
    let stop := match to_datetime (Bulan_Closed r) with
                | Some closed => closed
                | None => today
                end in
    (d < 0 <-> stop < reg) /\
    (stop < reg -> Aging_Category out = "≤30 Hari"%string).
Proof.
  intros Hfit Hr Hreg.
  exists (hitung_aging today df).
  rewrite (call_hitung_aging_fits today df Hfit), hitung_aging_nth, Hr. simpl.
  unfold aging_row. rewrite Hreg.
  assert (Hsign : forall stop, (stop - reg) / Timestamp.NS_PER_DAY < 0 <-> stop < reg).
  { intros stop. unfold Timestamp.NS_PER_DAY. split; intros H.
    - Z.div_mod_to_equations. lia.
    - Z.div_mod_to_equations. lia. }
  destruct (to_datetime (Bulan_Closed r)) as [closed|]; simpl;
    eexists; eexists; (split; [reflexivity|]); (split; [reflexivity|]);
    (split; [reflexivity|]);
    (split; [apply Hsign|]); intros Hlt; apply Hsign in Hlt;
    match goal with |- context [?x <=? 30] =>
      destruct (Z.leb_spec x 30); [reflexivity | lia] end.
Qed.

Lemma negative_aging_witness :
  exists rows out d,
    call_hitung_aging today_2024_04_30 [closed_before_register] = Returns rows /\
    nth_error rows 0 = Some out /\
    Aging_Days out = Some d /\
    let stop := match to_datetime (Bulan_Closed closed_before_register) with
                | Some closed => closed
                | None => today_2024_04_30
                end in
    (d < 0 <-> stop < midnight 2024 1 2) /\
    (stop < midnight 2024 1 2 -> Aging_Category out = "≤30 Hari"%string).
Proof.
  apply (negative_aging today_2024_04_30 [closed_before_register] 0
           closed_before_register (midnight 2024 1 2)); reflexivity.
Defined.

(** X6: a registration date outside the range of a time stamp (before
    1677-09-21 or after 2262-04-11) counts as missing: the date becomes
    [NaT], the aging days are missing, the category is "Unknown" and the
    transaction month is "NaT". *)
Theorem out_of_range_registration (today : Z) (detail_df : list detail_row)
    (order_df : list order_row) (i : nat) (r : detail_row) (ns : Z) :
  nth_error detail_df i = Some r ->
  Date_Register r = Datetime ns ->
  Timestamp.in_bounds ns = false ->
  exists out,
    nth_error (pipeline today detail_df order_df) i = Some out /\
    Date_Register (detail (left_row (merged out))) = NaT /\
    Aging_Days (left_row (merged out)) = None /\
    Aging_Category (left_row (merged out)) = "Unknown"%string /\
    Bulan_Transaksi out = "NaT"%string.
Proof.
  intros Hr Hcell Hout. unfold pipeline.
  rewrite hitung_profit_nth, hitung_aging_nth, Hr. simpl.
  eexists; split; [reflexivity|]. simpl.
  rewrite Hcell. simpl. rewrite Hout. simpl.
  destruct (to_datetime (Bulan_Closed r)); simpl; repeat split; reflexivity.
Qed.

Lemma out_of_range_registration_witness :
  exists out,
    nth_error (pipeline today_2024_04_30 [far_future_register] [order_X 50]) 0
    = Some out /\
    Date_Register (detail (left_row (merged out))) = NaT /\
    Aging_Days (left_row (merged out)) = None /\
    Aging_Category (left_row (merged out)) = "Unknown"%string /\
    Bulan_Transaksi out = "NaT"%string.
Proof.
  apply (out_of_range_registration today_2024_04_30 [far_future_register]
           [order_X 50] 0 far_future_register (midnight 3000 1 1));
    reflexivity.
Defined.

(** * Further properties of the merge and of [hitung_profit] *)

Section MergeMore.

Lemma find_app_or {A : Type} (f : A -> bool) (a b : list A) :
  find f (a ++ b) = match find f a with
                    | Some x => Some x
                    | None => find f b
                    end.
Proof.
  induction a as [|x a IH]; simpl; [reflexivity|]. now destruct (f x).
Qed.

Lemma lookup_cost_table (order_df : list order_row) (key : option string) :
  lookup (cost_table order_df) key = lookup (dropna order_df) key.
Proof. apply lookup_drop_duplicates. Qed.

(** Two cost sheets with the same first complete entry for every name give
    the same result. *)
Lemma hitung_profit_by_lookup (df : list aged_row) (o1 o2 : list order_row) :
  (forall key, lookup (dropna o1) key = lookup (dropna o2) key) ->
  hitung_profit df o1 = hitung_profit df o2.
Proof.
  intros H. rewrite !hitung_profit_rows. apply map_ext. intros l.
  unfold joined. now rewrite !lookup_cost_table, H.
Qed.

End MergeMore.

(** X8: in every row of the output the merged columns are either both
    missing, when the cost table has no entry for the product type, or those
    of an entry of the cost sheet with the product type as its name and a
    cost that is not NaN. *)
Theorem hitung_profit_merged_columns (df : list aged_row) (order_df : list order_row) :
  Forall (fun out =>
            let key := Type_Product (detail (left_row (merged out))) in
            (lookup (cost_table order_df) key = None /\
             right_row (merged out) = no_match)
            \/
            (In (right_row (merged out)) order_df /\
             Nama_Produk (right_row (merged out)) = key /\
             key <> None /\
             is_nan (Harga_Perolehan (right_row (merged out))) = false))
         (hitung_profit df order_df).
Proof.
  rewrite hitung_profit_rows. apply Forall_map, Forall_forall. intros l _.
  simpl. unfold joined.
  destruct (lookup (cost_table order_df) (Type_Product (detail l))) as [o|] eqn:E;
    [right | left; now split].
  apply lookup_found in E. destruct E as [Hin Hname].
  apply (drop_duplicates_from_incl (dropna order_df) []) in Hin.
  pose proof (dropna_complete order_df) as Hc. rewrite Forall_forall in Hc.
  destruct (Hc o Hin) as [Hsome Hcost].
  unfold dropna in Hin. apply filter_In in Hin.
  repeat split; [apply Hin | exact Hname | congruence | exact Hcost].
Qed.





(** * The transaction month and the dashboard *)

Section Dashboard.

Lemma period_str_NaT_iff (t : option Z) : period_str t = "NaT"%string <-> t = None.
Proof.
  destruct t as [ns|]; simpl; [|tauto].
  split; [|discriminate].
  unfold Timestamp.strftime_Ym, Timestamp.digits4, Timestamp.digits2. simpl.
  intros H. injection H as _ _ _ H. discriminate H.
Qed.

Lemma pipeline_rows (today : Z) (detail_df : list detail_row)
    (order_df : list order_row) :
  pipeline today detail_df order_df
  = map (fun r => profit_columns
                    {| left_row := aging_row today r;
                       right_row := joined order_df (aging_row today r) |})
        detail_df.
Proof.
  unfold pipeline. rewrite hitung_profit_rows. unfold hitung_aging.
  now rewrite map_map.
Qed.

Lemma pipeline_month (today : Z) (order_df : list order_row) (r : detail_row) :
  Bulan_Transaksi
    (profit_columns {| left_row := aging_row today r;
                       right_row := joined order_df (aging_row today r) |})
  = period_str (to_datetime (Date_Register r)).
Proof. simpl. now rewrite to_datetime_of_datetime. Qed.

Lemma existsb_eqb_In (x : string) (seen : list string) :
  existsb (String.eqb x) seen = true <-> In x seen.
Proof.
  rewrite existsb_exists. split.
  - intros (y & Hin & E). apply String.eqb_eq in E. now subst.
  - intros Hin. exists x. split; [exact Hin | apply String.eqb_refl].
Qed.

Lemma unique_from_spec (l seen : list string) :
  NoDup (unique_from seen l)
  /\ forall x, In x (unique_from seen l) <-> In x l /\ ~ In x seen.
Proof.
  revert seen. induction l as [|y l IH]; intros seen; simpl.
  - split; [constructor | tauto].
  - destruct (existsb (String.eqb y) seen) eqn:E.
    + destruct (IH seen) as [Hnd Hin]. split; [exact Hnd|].
      apply existsb_eqb_In in E. intros x. rewrite Hin.
      split; [tauto|]. intros [[<- | Hl] Hs]; [contradiction | tauto].
    + destruct (IH (y :: seen)) as [Hnd Hin].
      assert (Hy : ~ In y seen).
      { intros H. apply existsb_eqb_In in H. congruence. }
      split.
      * constructor; [|exact Hnd]. rewrite Hin. simpl. tauto.
      * intros x. simpl. rewrite Hin. simpl.
        destruct (String.eqb_spec y x) as [<- | Hne]; tauto.
Qed.

Lemma insert_sorted_NoDup (x : string) (l : list string) :
  ~ In x l -> NoDup l -> NoDup (insert_sorted x l).
Proof.
  induction l as [|y l IH]; simpl; intros Hx Hnd.
  - constructor; [tauto | constructor].
  - destruct (String.leb x y).
    + constructor; [simpl; tauto | exact Hnd].
    + inversion Hnd as [|? ? Hy Hl]; subst.
      constructor; [|apply IH; tauto].
      rewrite insert_sorted_In. intros [-> | H]; tauto.
Qed.

Lemma sorted_NoDup (l : list string) : NoDup l -> NoDup (sorted l).
Proof.
  induction l as [|x l IH]; simpl; intros Hnd; [constructor|].
  inversion Hnd; subst.
  apply insert_sorted_NoDup; [now rewrite sorted_In | auto].
Qed.

Lemma insert_sorted_Sorted (x : string) (l : list string) :
  Sorted (fun a b => String.leb a b = true) l ->
  Sorted (fun a b => String.leb a b = true) (insert_sorted x l).
Proof.
  induction l as [|y l IH]; simpl; intros Hs.
  - repeat constructor.
  - destruct (String.leb x y) eqn:E.
    + constructor; [exact Hs | constructor; exact E].
    + inversion Hs as [|? ? Hl Hhd]; subst.
      assert (Hyx : String.leb y x = true).
      { destruct (String.leb_total x y); congruence. }
      constructor; [apply IH, Hl|].
      destruct l as [|z l]; simpl; [constructor; exact Hyx|].
      destruct (String.leb x z); constructor; [exact Hyx|].
      now inversion Hhd.
Qed.

Lemma sorted_Sorted (l : list string) :
  Sorted (fun a b => String.leb a b = true) (sorted l).
Proof.
  induction l as [|x l IH]; simpl; [constructor|].
  apply insert_sorted_Sorted, IH.
Qed.

(** What the month filter offers: the months of the rows, "NaT" apart. *)
Lemma valid_months_In (detail_df : list profit_row) (m : string) :
  In m (valid_months detail_df)
  <-> m <> "NaT"%string /\ exists out, In out detail_df /\ Bulan_Transaksi out = m.
Proof.
  unfold valid_months, unique.
  rewrite sorted_In, filter_In.
  destruct (unique_from_spec (map Bulan_Transaksi detail_df) []) as [_ Hin].
  rewrite Hin, in_map_iff, negb_true_iff. simpl.
  destruct (String.eqb_spec m "NaT"); split.
  - intros [_ H]. discriminate.
  - intros [H _]. contradiction.
  - intros [[(out & E & Ho) _] _]. split; [assumption|]. now exists out.
  - intros [_ (out & Ho & E)]. repeat split; [now exists out | tauto].
Qed.

Lemma categorize_above_90 (days : option Z) :
  String.eqb (categorize days) ">90 Hari"
  = match days with
    | Some d => 90 <? d
    | None => false
    end.
Proof.
  destruct days as [d|]; simpl; [|reflexivity].
  destruct (Z.leb_spec d 30); destruct (Z.leb_spec d 90);
    destruct (Z.ltb_spec 90 d); try reflexivity; lia.
Qed.

Lemma cell_notna_of_datetime (t : option Z) : cell_notna (of_datetime t) = notna t.
Proof. now destruct t. Qed.

End Dashboard.

(** X11: the transaction month of an output row is the string "NaT"
    exactly when the registration date of the row does not parse: no month
    of a date is rendered as the marker. *)
Theorem month_is_NaT_iff (df : list aged_row) (order_df : list order_row) :
  Forall (fun out =>
            Bulan_Transaksi out = "NaT"%string
            <-> to_datetime (Date_Register (detail (left_row (merged out)))) = None)
         (hitung_profit df order_df).
Proof.
  rewrite hitung_profit_rows. apply Forall_map, Forall_forall. intros l _.
  simpl. apply period_str_NaT_iff.
Qed.

(** X12: every row whose transaction month is not "NaT" can be reached
    through the month filter: its month is among the offered months and
    selecting that month shows the row. *)
Theorem dated_row_is_selectable (detail_df : list profit_row) (out : profit_row) :
  In out detail_df ->
  Bulan_Transaksi out <> "NaT"%string ->
  In (Bulan_Transaksi out) (valid_months detail_df)
  /\ In out (df_bulan detail_df (Bulan_Transaksi out)).
Proof.
  intros Hin Hm. split.
  - apply valid_months_In. split; [exact Hm | now exists out].
  - unfold df_bulan. apply filter_In. split; [exact Hin | apply String.eqb_refl].
Qed.

Lemma dated_row_is_selectable_witness :
  In "2024-01"%string
     (valid_months (pipeline today_2024_04_30 [open_project; unparseable_register]
                             [order_X 50]))
  /\ exists out,
       nth_error (pipeline today_2024_04_30 [open_project; unparseable_register]
                           [order_X 50]) 0 = Some out
       /\ In out (df_bulan (pipeline today_2024_04_30
                              [open_project; unparseable_register] [order_X 50])
                           "2024-01").
Proof.
  destruct (dated_row_is_selectable
              (pipeline today_2024_04_30 [open_project; unparseable_register]
                        [order_X 50])
              (hd (profit_columns {| left_row := aging_row 0 open_project;
                                     right_row := no_match |})
                  (pipeline today_2024_04_30 [open_project; unparseable_register]
                            [order_X 50])))
    as [H1 H2].
  - left. reflexivity.
  - vm_compute. discriminate.
  - split; [exact H1|]. eexists. split; [reflexivity | exact H2].
Defined.

(** X13: every month the filter offers selects at least one row, and every
    row it selects has that month, which is not "NaT": no record with an
    unparseable registration date is shown under any month. *)
Theorem offered_month_selects_rows (detail_df : list profit_row) (bulan : string) :
  In bulan (valid_months detail_df) ->
  df_bulan detail_df bulan <> []
  /\ Forall (fun out => In out detail_df /\ Bulan_Transaksi out = bulan
                        /\ Bulan_Transaksi out <> "NaT"%string)
            (df_bulan detail_df bulan).
Proof.
  intros H. apply valid_months_In in H. destruct H as [Hne (out & Hin & E)].
  split.
  - intros Hempty.
    assert (Ho : In out (df_bulan detail_df bulan)).
    { unfold df_bulan. apply filter_In. split; [exact Hin|].
      now apply String.eqb_eq. }
    rewrite Hempty in Ho. contradiction.
  - apply Forall_forall. intros o Ho. unfold df_bulan in Ho.
    apply filter_In in Ho. destruct Ho as [Ho Eo].
    apply String.eqb_eq in Eo. repeat split; congruence.
Qed.

Lemma offered_month_selects_rows_witness :
  df_bulan (pipeline today_2024_04_30 [open_project; unparseable_register]
                     [order_X 50]) "2024-01" <> []
  /\ Forall (fun out =>
               In out (pipeline today_2024_04_30
                         [open_project; unparseable_register] [order_X 50])
               /\ Bulan_Transaksi out = "2024-01"%string
               /\ Bulan_Transaksi out <> "NaT"%string)
            (df_bulan (pipeline today_2024_04_30
                         [open_project; unparseable_register] [order_X 50])
                      "2024-01").
Proof.
  apply (offered_month_selects_rows
           (pipeline today_2024_04_30 [open_project; unparseable_register]
                     [order_X 50]) "2024-01").
  left. reflexivity.
Defined.

(** X14: the offered months are in ascending order and none is offered
    twice. *)
Theorem valid_months_ascending (detail_df : list profit_row) :
  Sorted (fun a b => String.leb a b = true) (valid_months detail_df)
  /\ NoDup (valid_months detail_df).
Proof.
  unfold valid_months. split; [apply sorted_Sorted|].
  apply sorted_NoDup, NoDup_filter.
  apply (unique_from_spec (map Bulan_Transaksi detail_df) []).
Qed.

(** X15: the dashboard has no month to offer, and warns instead of
    showing the filter, exactly when no registration date of the sheet
    parses; an empty sheet is such a one. *)
Theorem no_valid_month_iff (today : Z) (detail_df : list detail_row)
    (order_df : list order_row) :
  valid_months (pipeline today detail_df order_df) = []
  <-> Forall (fun r => to_datetime (Date_Register r) = None) detail_df.
Proof.
  rewrite Forall_forall. split.
  - intros Hempty r Hin.
    destruct (to_datetime (Date_Register r)) as [ns|] eqn:E; [|reflexivity].
    exfalso.
    assert (H : In (period_str (Some ns)) (valid_months (pipeline today detail_df order_df))).
    { apply valid_months_In. split.
      - intros Hn. apply period_str_NaT_iff in Hn. discriminate.
      - rewrite pipeline_rows. eexists. split.
        + apply in_map. exact Hin.
        + now rewrite pipeline_month, E. }
    rewrite Hempty in H. contradiction.
  - intros Hall.
    destruct (valid_months (pipeline today detail_df order_df)) as [|m ms] eqn:E;
      [reflexivity|].
    assert (H : In m (valid_months (pipeline today detail_df order_df)))
      by (rewrite E; now left).
    apply valid_months_In in H. destruct H as [Hne (out & Hin & Hm)].
    rewrite pipeline_rows in Hin. apply in_map_iff in Hin.
    destruct Hin as (r & <- & Hr).
    rewrite pipeline_month, (Hall r Hr) in Hm. simpl in Hm. congruence.
Qed.



Example colors_of_samples :
  map (fun out => hd ""%string (color_aging out))
      (pipeline today_2024_04_30
         [open_project; closed_after_30; unparseable_register;
          sample (Datetime (midnight 2024 4 1)) (Text "soon" None) "X" 1 10]
         [order_X 50])
  = ["color: red"; "background-color: lightgreen"; ""; ""]%string.
Proof. reflexivity. Qed.

(** X17: on a sheet whose spans fit and in which some record has a
    product type, the whole pass returns one row for each row of the sheet,
    in the order of the sheet, with the name, customer, project, product
    type, quantity and price of the sheet unchanged and the two dates
    coerced. *)
Theorem pipeline_carries_sheet (today : Z) (detail_df : list detail_row)
    (order_df : list order_row) :
  spans_fit today detail_df = true ->
  existsb (fun r => notna (Type_Product r)) detail_df = true ->
  exists rows,
    call_pipeline today detail_df order_df = Returns rows /\
    Forall2 (fun r out =>
               let d := detail (left_row (merged out)) in
               Sales_Name d = Sales_Name r /\
               Customer d = Customer r /\
               Project_Name d = Project_Name r /\
               Type_Product d = Type_Product r /\
               QTY d = QTY r /\
               Harga_Satuan d = Harga_Satuan r /\
               to_datetime (Date_Register d) = to_datetime (Date_Register r) /\
               to_datetime (Bulan_Closed d) = to_datetime (Bulan_Closed r))
            detail_df rows.
Proof.
  intros Hfit Htype. exists (pipeline today detail_df order_df). split.
  - unfold call_pipeline, pipeline.
    rewrite (call_hitung_aging_fits today detail_df Hfit).
    apply merge_keys_accepted. left.
    unfold hitung_aging. rewrite existsb_of_map. exact Htype.
  - rewrite pipeline_rows. clear Hfit Htype.
    induction detail_df as [|r rest IH]; simpl; constructor; [|exact IH].
    simpl. repeat split; try reflexivity; apply to_datetime_of_datetime.
Qed.

Lemma pipeline_carries_sheet_witness :
  exists rows,
    call_pipeline today_2024_04_30 [open_project; no_product_type] [order_X 50]
    = Returns rows /\
    Forall2 (fun r out =>
               let d := detail (left_row (merged out)) in
               Sales_Name d = Sales_Name r /\
               Customer d = Customer r /\
               Project_Name d = Project_Name r /\
               Type_Product d = Type_Product r /\
               QTY d = QTY r /\
               Harga_Satuan d = Harga_Satuan r /\
               to_datetime (Date_Register d) = to_datetime (Date_Register r) /\
               to_datetime (Bulan_Closed d) = to_datetime (Bulan_Closed r))
            [open_project; no_product_type] rows.
Proof.
  apply (pipeline_carries_sheet today_2024_04_30 [open_project; no_product_type]
           [order_X 50]); reflexivity.
Defined.

(** X18: a call of [hitung_aging] raises [OverflowError] exactly when, for
    some row, the closing date minus the registration date or the
    registration date minus the current instant leaves int64, whether or
    not the row uses that difference; otherwise it returns one row for each
    row of the frame. *)
Theorem hitung_aging_raises_iff (today : Z) (df : list detail_row) :
  (existsb (aging_overflows today) df = true
   <-> call_hitung_aging today df = Raises OverflowError)
  /\ (existsb (aging_overflows today) df = false
      <-> exists rows, call_hitung_aging today df = Returns rows
                       /\ List.length rows = List.length df).
Proof.
  destruct (call_hitung_aging_outcome today df) as [[He Hc] | [He (rows & Hc & Hl)]];
    rewrite He, Hc; split; split; try discriminate; try reflexivity.
  - intros (rows & [=] & _).
  - intros _. now exists rows.
Qed.
